(** * GymTracker backend: access control, validation and the daily protein counter

    A shallow embedding of [api/models.py], [api/mixins.py],
    [api/serializers.py] and [api/views.py].

    The relational store is an explicit value [DB] threaded through every
    operation.  A raised exception ends the request and leaves the store as it
    was when the exception was raised: requests are not wrapped in a
    transaction (Django's default, [ATOMIC_REQUESTS] off).

    Python integers are [Z], dates are day numbers in [Z], dictionaries are
    [gmap string _].  A string is a [string] whose characters are Unicode
    code points below 256: character number 201 is the capital E with acute
    accent (U+00C9), number 233 the small one (U+00E9).  Text with code
    points from 256 on is outside the model. *)

From stdpp Require Import base gmap strings list fin_maps pretty.

Local Open Scope string_scope.
Local Open Scope list_scope.
Local Open Scope Z_scope.

(** ** Exceptions *)

(** One entry of a validation error.  Messages that come from this repository
    (or from Django's user model) are kept as [Text]; the stock messages of the
    framework's serializer fields are represented by their error codes. *)
Inductive ErrorDetail :=
  | Text (message : string)
  | Required
  | Invalid
  | Blank
  | NullCharacters
  | MaxLength (limit : Z)
  | MinValue (limit : Z)
  | MaxValue (limit : Z)
  | MaxDigits (limit : Z)
  | MaxDecimalPlaces (limit : Z)
  | MaxWholeDigits (limit : Z).

(** The three shapes of [ValidationError.detail] the code produces:
    a bare message, a dictionary field -> list of errors (serializer
    validation, and [{'password': err.messages}]), and a dictionary
    field -> message (the dict comprehension of [ExerciseSerializer.update]). *)
Inductive Detail :=
  | Message (message : string)
  | FieldErrors (errors : gmap string (list ErrorDetail))
  | FieldMessage (errors : gmap string string).

(** [NotFound] is raised by [WorkoutAccessMixin]; [Http404] by the framework's
    [get_object_or_404]; [Unhandled] stands for the exceptions no handler
    catches (IntegrityError, DatabaseError, OverflowError, ValueError). *)
Inductive exn :=
  | NotFound (detail : string)
  | Http404
  | ValidationError (detail : Detail)
  | Unhandled (name : string).

(** The HTTP status the framework's exception handler answers with. *)
Definition status_code (e : exn) : Z :=
  match e with
  | NotFound _ => 404
  | Http404 => 404
  | ValidationError _ => 400
  | Unhandled _ => 500
  end.

Inductive result (A : Type) :=
  | Ok (a : A)
  | Raise (e : exn).
Arguments Ok {A} a.
Arguments Raise {A} e.

(** ** Data model (models.py) *)

(** [decimal.Decimal], finite values only: [coef * 10 ^ exp]. *)
Record Decimal := mkDecimal { coef : Z; exp : Z }.

Record User := mkUser {
  user_id : option Z;
  username : string;
  password : string;
  protein_goal : Z;
  todays_protein : Z;
  protein_last_update : Z
}.

Record Workout := mkWorkout {
  workout_id : option Z;
  workout_name : string;
  owner : Z
}.

Record Exercise := mkExercise {
  exercise_id : option Z;
  exercise_name : string;
  sets : Z;
  reps : Z;
  weight : Decimal;
  workout : Z
}.

(** The three tables, keyed by primary key. *)
Record DB := mkDB {
  users : gmap Z User;
  workouts : gmap Z Workout;
  exercises : gmap Z Exercise
}.

Definition set_users (db : DB) (t : gmap Z User) : DB :=
  mkDB t (workouts db) (exercises db).
Definition set_workouts (db : DB) (t : gmap Z Workout) : DB :=
  mkDB (users db) t (exercises db).
Definition set_exercises (db : DB) (t : gmap Z Exercise) : DB :=
  mkDB (users db) (workouts db) t.

Definition set_user_id (u : User) (v : option Z) : User :=
  mkUser v (username u) (password u) (protein_goal u) (todays_protein u)
         (protein_last_update u).
Definition set_username (u : User) (v : string) : User :=
  mkUser (user_id u) v (password u) (protein_goal u) (todays_protein u)
         (protein_last_update u).
Definition set_password_field (u : User) (v : string) : User :=
  mkUser (user_id u) (username u) v (protein_goal u) (todays_protein u)
         (protein_last_update u).
Definition set_protein_goal (u : User) (v : Z) : User :=
  mkUser (user_id u) (username u) (password u) v (todays_protein u)
         (protein_last_update u).
Definition set_todays_protein (u : User) (v : Z) : User :=
  mkUser (user_id u) (username u) (password u) (protein_goal u) v
         (protein_last_update u).
Definition set_protein_last_update (u : User) (v : Z) : User :=
  mkUser (user_id u) (username u) (password u) (protein_goal u)
         (todays_protein u) v.

Definition set_workout_id (w : Workout) (v : option Z) : Workout :=
  mkWorkout v (workout_name w) (owner w).

Definition set_exercise_id (e : Exercise) (v : option Z) : Exercise :=
  mkExercise v (exercise_name e) (sets e) (reps e) (weight e) (workout e).
Definition set_reps (e : Exercise) (v : Z) : Exercise :=
  mkExercise (exercise_id e) (exercise_name e) (sets e) v (weight e) (workout e).
Definition set_weight (e : Exercise) (v : Decimal) : Exercise :=
  mkExercise (exercise_id e) (exercise_name e) (sets e) (reps e) v (workout e).

(** ** The store-threading exception monad *)

Definition M (A : Type) : Type := DB → result A * DB.

Definition ret {A} (a : A) : M A := λ db, (Ok a, db).
Definition raise {A} (e : exn) : M A := λ db, (Raise e, db).
Definition bind {A B} (c : M A) (k : A → M B) : M B := λ db,
  match c db with
  | (Ok a, db') => k a db'
  | (Raise e, db') => (Raise e, db')
  end.

Notation "x <- c ;; k" := (bind c (λ x, k))
  (at level 100, c at next level, right associativity).

(** ** Strings *)

(** [str.lower()] on one code point below 256.  Python lower-cases every
    cased letter: the letters 65..90 ('A'..'Z') and the accented capitals
    192..214 and 216..222 move up by 32; every other code point below 256
    stays as it is. *)
Definition lower_char (c : Ascii.ascii) : Ascii.ascii :=
  let n := Ascii.N_of_ascii c in
  if ((65 <=? n) && (n <=? 90))%N then Ascii.ascii_of_N (n + 32)
  else if ((192 <=? n) && (n <=? 222) && negb (n =? 215))%N
  then Ascii.ascii_of_N (n + 32)
  else c.

(** The case folding of the database in a case-insensitive comparison: the
    letters 'a'..'z' only (SQLite's [LIKE], the backend of a default Django
    project; the settings are not among the sources). *)
Definition fold_char (c : Ascii.ascii) : Ascii.ascii :=
  let n := Ascii.N_of_ascii c in
  if ((97 <=? n) && (n <=? 122))%N then Ascii.ascii_of_N (n - 32) else c.

(** [str.lower()] *)
Fixpoint lower (s : string) : string :=
  match s with
  | EmptyString => EmptyString
  | String c s' => String (lower_char c) (lower s')
  end.

Fixpoint fold (s : string) : string :=
  match s with
  | EmptyString => EmptyString
  | String c s' => String (fold_char c) (fold s')
  end.

(** The [iexact] lookup: the database compares the column with the value,
    both folded its way. *)
Definition iexact (column value : string) : bool :=
  bool_decide (fold column = fold value).

(** [len(s)] *)
Definition len (s : string) : Z := Z.of_nat (String.length s).

(** ** The ORM: primary keys and [Model.save] *)

(** The key an auto-increment column gives to the next inserted row. *)
Definition fresh_pk {A} (t : gmap Z A) : Z :=
  1 + map_fold (λ k _ acc, Z.max k acc) 0 t.

(** [objects.get(pk=k)]: the instance built from row [k]. *)
Definition get_user (db : DB) (k : Z) : option User :=
  (λ u, set_user_id u (Some k)) <$> users db !! k.
Definition get_workout_row (db : DB) (k : Z) : option Workout :=
  (λ w, set_workout_id w (Some k)) <$> workouts db !! k.
Definition get_exercise_row (db : DB) (k : Z) : option Exercise :=
  (λ e, set_exercise_id e (Some k)) <$> exercises db !! k.

(** The unique index on [username]: some row other than [self_pk] already
    holds [name]. *)
Definition username_taken (t : gmap Z User) (self_pk : option Z) (name : string)
  : bool :=
  bool_decide (map_Exists (λ k row, Some k ≠ self_pk ∧ username row = name) t).

Definition is_user_field (f : string) : bool :=
  bool_decide (f ∈ ["username"; "password"; "protein_goal"; "todays_protein";
                    "protein_last_update"]).

(** Column [f] of [dst] overwritten with the value held by [src]. *)
Definition copy_field (f : string) (src dst : User) : User :=
  if decide (f = "username") then set_username dst (username src)
  else if decide (f = "password") then set_password_field dst (password src)
  else if decide (f = "protein_goal") then set_protein_goal dst (protein_goal src)
  else if decide (f = "todays_protein")
       then set_todays_protein dst (todays_protein src)
  else if decide (f = "protein_last_update")
       then set_protein_last_update dst (protein_last_update src)
  else dst.

(** Django's [Model.save] on the users table.  With [update_fields] only the
    named columns of the existing row are written (an absent row is a
    DatabaseError); without it every column is written, the row being
    inserted under a fresh key when the instance has none. *)
Definition Model_save (self : User) (update_fields : option (list string))
  : M User := λ db,
  match update_fields with
  | Some [] => (Ok self, db)
  | Some fs =>
      if negb (forallb is_user_field fs) then (Raise (Unhandled "ValueError"), db)
      else
        match user_id self with
        | None => (Raise (Unhandled "ValueError"), db)
        | Some k =>
            match users db !! k with
            | None => (Raise (Unhandled "DatabaseError"), db)
            | Some row =>
                let row' := foldr (λ f r, copy_field f self r) row fs in
                if bool_decide ("username" ∈ fs)
                   && username_taken (users db) (Some k) (username row')
                then (Raise (Unhandled "IntegrityError"), db)
                else (Ok self, set_users db (<[k := row']> (users db)))
            end
        end
  | None =>
      if username_taken (users db) (user_id self) (username self)
      then (Raise (Unhandled "IntegrityError"), db)
      else
        let k := match user_id self with
                 | Some k => k
                 | None => fresh_pk (users db)
                 end in
        let self' := set_user_id self (Some k) in
        (Ok self', set_users db (<[k := self']> (users db)))
  end.

(** ** models.py: [User] *)

(** [User.save]: the username is lower-cased on the instance, then the
    framework's save runs. *)
Definition User_save (self : User) (update_fields : option (list string))
  : M User :=
  let self := if bool_decide (username self ≠ "")
              then set_username self (lower (username self))
              else self in
  Model_save self update_fields.

(** [User.reset_todays_protein]; [today] is the value of [date.today()]. *)
Definition reset_todays_protein (today : Z) (self : User) : M User :=
  if bool_decide (protein_last_update self ≠ today) then
    let self := set_todays_protein self 0 in
    let self := set_protein_last_update self today in
    User_save self (Some ["todays_protein"; "protein_last_update"])
  else ret self.

(** [User.add_protein] *)
Definition add_protein (self : User) (protein_to_add : Z) : M User :=
  if bool_decide (protein_to_add ≤ 0) then
    raise (ValidationError (Message "Protein amount must be greater than 0."))
  else if bool_decide (todays_protein self + protein_to_add > 500) then
    raise (ValidationError (Message "Todays protein cannot be greater than 500."))
  else
    let self := set_todays_protein self (todays_protein self + protein_to_add) in
    User_save self (Some ["todays_protein"]).

(** ** Requests and responses *)

(** What Python's built-in [int(x)] does with a request value. *)
Inductive conversion :=
  | Converted (n : Z)
  | ValueOrTypeError
  | OtherError.

(** The values a parsed request body can hold, and the conversions the Python
    runtime and the framework's serializer fields perform on them.  They are
    external to this repository, so the development is parametric in them:
    - [is_None x]: [x is None];
    - [int_ x]: the built-in [int(x)];
    - [to_int x]: [IntegerField.to_internal_value], [None] when it fails;
    - [to_str x]: [CharField.to_internal_value], the text of [x] with
      surrounding whitespace stripped, [None] when it fails;
    - [to_decimal x]: the finite [Decimal] that [DecimalField] parses,
      [None] when it fails. *)
Class Wire := {
  raw : Type;
  is_None : raw → bool;
  int_ : raw → conversion;
  to_int : raw → option Z;
  to_str : raw → option string;
  to_decimal : raw → option Decimal
}.

(** Django's user model and password machinery, external as well:
    - [username_validators]: the format validators declared on
      [AbstractUser.username];
    - [validate_password password user]: the messages of
      [password_validation.validate_password], empty when it accepts;
    - [make_password]: the password hasher. *)
Class Accounts := {
  username_validators : string → list ErrorDetail;
  validate_password : string → User → list string;
  make_password : string → string
}.

(** A value of a response body. *)
Inductive value :=
  | VNull
  | VInt (n : Z)
  | VStr (s : string)
  | VDec (d : Decimal).

Inductive Body :=
  | NoContent
  | Object (fields : gmap string value)
  | Array (items : list (gmap string value)).

Record Response := mkResponse { status : Z; body : Body }.

Definition pk_value (k : option Z) : value :=
  match k with
  | Some n => VInt n
  | None => VNull
  end.

(** ** Serializer fields (the framework's [run_validation]) *)

Section Fields.
Context `{Wire}.

(** The request: the authenticated [request.user] and [request.data]. *)
Record Request := mkRequest { user : User; data : gmap string raw }.

Definition has_null_character (s : string) : bool :=
  bool_decide (Ascii.zero ∈ String.list_ascii_of_string s).

(** [CharField(max_length=..., validators=...)]: blank test, conversion,
    then every validator, their errors collected. *)
Definition CharField (max_length : Z) (validators : string → list ErrorDetail)
    (x : raw) : list ErrorDetail + string :=
  match to_str x with
  | None => inl [Invalid]
  | Some s =>
      if bool_decide (s = "") then inl [Blank]
      else
        let errors :=
          validators s
          ++ (if bool_decide (len s > max_length) then [MaxLength max_length]
              else [])
          ++ (if has_null_character s then [NullCharacters] else []) in
        match errors with
        | [] => inr s
        | _ => inl errors
        end
  end.

(** [IntegerField(min_value=..., max_value=...)] *)
Definition IntegerField (min_value max_value : Z) (x : raw)
    : list ErrorDetail + Z :=
  match to_int x with
  | None => inl [Invalid]
  | Some n =>
      let errors :=
        (if bool_decide (n > max_value) then [MaxValue max_value] else [])
        ++ (if bool_decide (n < min_value) then [MinValue min_value] else []) in
      match errors with
      | [] => inr n
      | _ => inl errors
      end
  end.

Fixpoint digits_fuel (fuel : nat) (n : Z) : Z :=
  match fuel with
  | O => 1
  | S fuel' => if bool_decide (n < 10) then 1 else 1 + digits_fuel fuel' (n / 10)
  end.

(** [len(digittuple)] of a Decimal with coefficient [n]. *)
Definition num_digits (n : Z) : Z :=
  digits_fuel (Z.to_nat (Z.log2 (Z.abs n))) (Z.abs n).

(** [DecimalField.validate_precision] *)
Definition validate_precision (max_digits decimal_places : Z) (d : Decimal)
    : list ErrorDetail + Decimal :=
  let max_whole_digits := max_digits - decimal_places in
  let '(total_digits, whole_digits, places) :=
    if bool_decide (0 ≤ exp d) then
      (num_digits (coef d) + exp d, num_digits (coef d) + exp d, 0)
    else if bool_decide (num_digits (coef d) > Z.abs (exp d)) then
      (num_digits (coef d), num_digits (coef d) - Z.abs (exp d), Z.abs (exp d))
    else
      (Z.abs (exp d), 0, Z.abs (exp d)) in
  if bool_decide (total_digits > max_digits) then inl [MaxDigits max_digits]
  else if bool_decide (places > decimal_places)
  then inl [MaxDecimalPlaces decimal_places]
  else if bool_decide (whole_digits > max_whole_digits)
  then inl [MaxWholeDigits max_whole_digits]
  else inr d.

(** [DecimalField.quantize] to [decimal_places] places; exact, because
    [validate_precision] has bounded the number of decimal places. *)
Definition quantize (decimal_places : Z) (d : Decimal) : Decimal :=
  mkDecimal (coef d * 10 ^ (exp d + decimal_places)) (- decimal_places).

(** [DecimalField(max_digits=..., decimal_places=..., min_value=0)] *)
Definition DecimalField (max_digits decimal_places : Z) (x : raw)
    : list ErrorDetail + Decimal :=
  match to_decimal x with
  | None => inl [Invalid]
  | Some d =>
      match validate_precision max_digits decimal_places d with
      | inl errors => inl errors
      | inr d =>
          let d := quantize decimal_places d in
          if bool_decide (coef d < 0) then inl [MinValue 0] else inr d
      end
  end.

(** One field of [Serializer.to_internal_value]: a key that is absent is an
    error only for a required field of a non-partial serializer. *)
Definition run_field {A} (partial required : bool)
    (field : raw → list ErrorDetail + A) (d : gmap string raw) (name : string)
    : list ErrorDetail + option A :=
  match d !! name with
  | None => if required && negb partial then inl [Required] else inr None
  | Some x =>
      match field x with
      | inl errors => inl errors
      | inr a => inr (Some a)
      end
  end.

Definition errors_of {A} (name : string) (r : list ErrorDetail + A)
    : gmap string (list ErrorDetail) :=
  match r with
  | inl errors => {[ name := errors ]}
  | inr _ => ∅
  end.

Definition value_of {A} (r : list ErrorDetail + option A) : option A :=
  match r with
  | inl _ => None
  | inr a => a
  end.

End Fields.

#[global] Instance ErrorDetail_eq_dec : EqDecision ErrorDetail.
Proof. solve_decision. Defined.

(** ** The ORM on workouts and exercises *)

(** [Model.save] of a workout or an exercise: every column written, under a
    fresh key when the instance has none. *)
Definition Workout_save (self : Workout) : M Workout := λ db,
  let k := match workout_id self with
           | Some k => k
           | None => fresh_pk (workouts db)
           end in
  let self' := set_workout_id self (Some k) in
  (Ok self', set_workouts db (<[k := self']> (workouts db))).

Definition Exercise_save (self : Exercise) : M Exercise := λ db,
  let k := match exercise_id self with
           | Some k => k
           | None => fresh_pk (exercises db)
           end in
  let self' := set_exercise_id self (Some k) in
  (Ok self', set_exercises db (<[k := self']> (exercises db))).

(** [workout.delete()]: the row goes, and with it ([on_delete=CASCADE]) every
    exercise that references it. *)
Definition Workout_delete (self : Workout) : M unit := λ db,
  match workout_id self with
  | Some k =>
      (Ok (), mkDB (users db) (delete k (workouts db))
                   (filter (λ ke, workout ke.2 ≠ k) (exercises db)))
  | None => (Raise (Unhandled "ValueError"), db)
  end.

(** [exercise.delete()] *)
Definition Exercise_delete (self : Exercise) : M unit := λ db,
  match exercise_id self with
  | Some k => (Ok (), set_exercises db (delete k (exercises db)))
  | None => (Raise (Unhandled "ValueError"), db)
  end.

(** [Workout.objects.filter(owner=user)] *)
Definition Workout_filter_owner (db : DB) (u : User) : gmap Z Workout :=
  filter (λ kw, Some (owner kw.2) = user_id u) (workouts db).

(** [Exercise.objects.filter(workout=w)] *)
Definition Exercise_filter_workout (db : DB) (w : Workout) : gmap Z Exercise :=
  filter (λ ke, Some (workout ke.2) = workout_id w) (exercises db).

(** The instances of a queryset. *)
Definition workout_instances (q : gmap Z Workout) : list Workout :=
  (λ kw, set_workout_id kw.2 (Some kw.1)) <$> map_to_list q.
Definition exercise_instances (q : gmap Z Exercise) : list Exercise :=
  (λ ke, set_exercise_id ke.2 (Some ke.1)) <$> map_to_list q.

(** The framework's [get_object_or_404(queryset, pk=k)]. *)
Definition get_workout_or_404 (q : gmap Z Workout) (k : Z) : M Workout :=
  match q !! k with
  | Some w => ret (set_workout_id w (Some k))
  | None => raise Http404
  end.
Definition get_exercise_or_404 (q : gmap Z Exercise) (k : Z) : M Exercise :=
  match q !! k with
  | Some e => ret (set_exercise_id e (Some k))
  | None => raise Http404
  end.

(** ** mixins.py *)

(** [WorkoutAccessMixin.get_workout]; [u] is [self.request.user]. *)
Definition get_workout (u : User) (workout_id : Z) : M Workout := λ db,
  match get_workout_row db workout_id with
  | None => (Raise (NotFound "Workout not found"), db)
  | Some workout =>
      if bool_decide (Some (owner workout) ≠ user_id u)
      then (Raise (NotFound "Workout not found"), db)
      else (Ok workout, db)
  end.

(** ** serializers.py *)

Section Serializers.
Context `{Wire} `{Accounts}.

(** *** UserSerializer: fields id (read-only), username, password (write-only) *)

Definition duplicate_username : string :=
  "A user with that username already exists.".

(** The framework's [UniqueValidator] on the unique column [username]. *)
Definition UniqueValidator (db : DB) (v : string) : list ErrorDetail :=
  if bool_decide (map_Exists (λ _ row, username row = v) (users db))
  then [Text duplicate_username]
  else [].

(** [UserSerializer.validate_username] *)
Definition validate_username (db : DB) (v : string)
    : list ErrorDetail + string :=
  if bool_decide (map_Exists (λ _ row, iexact (username row) v = true) (users db))
  then inl [Text duplicate_username]
  else inr (lower v).

Record UserData := mkUserData { vd_username : string; vd_password : string }.

(** [is_valid] of a [UserSerializer(data=...)]: each field is validated,
    [validate_username] runs on a username that passed its field, and the
    errors of both fields are collected. *)
Definition UserSerializer_is_valid (d : gmap string raw) : M UserData := λ db,
  let username :=
    match run_field false true
            (CharField 150 (λ s, username_validators s ++ UniqueValidator db s))
            d "username" with
    | inr (Some v) =>
        match validate_username db v with
        | inl errors => inl errors
        | inr v' => inr (Some v')
        end
    | other => other
    end in
  let password := run_field false true (CharField 128 (λ _, [])) d "password" in
  match username, password with
  | inr (Some u), inr (Some p) => (Ok (mkUserData u p), db)
  | _, _ =>
      (Raise (ValidationError (FieldErrors
         (errors_of "username" username ∪ errors_of "password" password))), db)
  end.

(** [UserSerializer.create]; [today] is the default of
    [protein_last_update]. *)
Definition UserSerializer_create (today : Z) (validated_data : UserData)
    : M User :=
  let password := vd_password validated_data in
  let user := mkUser None (vd_username validated_data) "" 150 0 today in
  match validate_password password user with
  | [] =>
      let user := set_password_field user (make_password password) in
      User_save user None
  | messages =>
      raise (ValidationError (FieldErrors {[ "password" := Text <$> messages ]}))
  end.

Definition UserSerializer_data (u : User) : gmap string value :=
  {[ "id" := pk_value (user_id u); "username" := VStr (username u) ]}.

(** *** WorkoutSerializer: fields id (read-only), name, owner (read-only) *)

Definition WorkoutSerializer_is_valid (d : gmap string raw) : result string :=
  match run_field false true (CharField 30 (λ _, [])) d "name" with
  | inr (Some name) => Ok name
  | name => Raise (ValidationError (FieldErrors (errors_of "name" name)))
  end.

(** [serializer.save(owner=...)] of a new workout *)
Definition WorkoutSerializer_save (name : string) (owner : User) : M Workout :=
  match user_id owner with
  | Some k => Workout_save (mkWorkout None name k)
  | None => raise (Unhandled "ValueError")
  end.

Definition WorkoutSerializer_data (w : Workout) : gmap string value :=
  {[ "id" := pk_value (workout_id w); "name" := VStr (workout_name w);
     "owner" := VInt (owner w) ]}.

(** *** ExerciseSerializer: fields id (read-only), name, sets, reps, weight *)

Record ExerciseData := mkExerciseData {
  vd_name : option string;
  vd_sets : option Z;
  vd_reps : option Z;
  vd_weight : option Decimal
}.

Definition ExerciseSerializer_is_valid (partial : bool) (d : gmap string raw)
    : result ExerciseData :=
  let name := run_field partial true (CharField 30 (λ _, [])) d "name" in
  let sets := run_field partial true (IntegerField 1 99) d "sets" in
  let reps := run_field partial true (IntegerField 1 99) d "reps" in
  let weight := run_field partial false (DecimalField 5 2) d "weight" in
  let errors := errors_of "name" name ∪ errors_of "sets" sets
                ∪ errors_of "reps" reps ∪ errors_of "weight" weight in
  if bool_decide (errors = ∅)
  then Ok (mkExerciseData (value_of name) (value_of sets) (value_of reps)
                          (value_of weight))
  else Raise (ValidationError (FieldErrors errors)).

Definition key_of {A} (name : string) (v : option A) : gset string :=
  match v with
  | Some _ => {[ name ]}
  | None => ∅
  end.

(** [set(validated_data)] *)
Definition keys (validated_data : ExerciseData) : gset string :=
  key_of "name" (vd_name validated_data)
  ∪ key_of "sets" (vd_sets validated_data)
  ∪ key_of "reps" (vd_reps validated_data)
  ∪ key_of "weight" (vd_weight validated_data).

(** [serializer.save(workout=...)] of a new exercise:
    [Exercise.objects.create] on the validated data, [weight] taking the
    default [Decimal('0.00')] of the model when it is not given. *)
Definition ExerciseSerializer_save (validated_data : ExerciseData)
    (w : Workout) : M Exercise :=
  match vd_name validated_data, vd_sets validated_data,
        vd_reps validated_data, workout_id w with
  | Some name, Some sets, Some reps, Some k =>
      Exercise_save (mkExercise None name sets reps
                       (default (mkDecimal 0 (-2)) (vd_weight validated_data)) k)
  | _, _, _, _ => raise (Unhandled "IntegrityError")
  end.

(** [ExerciseSerializer.update] *)
Definition ExerciseSerializer_update (instance : Exercise)
    (validated_data : ExerciseData) : M Exercise :=
  let allowed : gset string := {[ "weight"; "reps" ]} in
  let forbidden := keys validated_data ∖ allowed in
  if bool_decide (forbidden ≠ ∅) then
    raise (ValidationError (FieldMessage
             (gset_to_gmap "This field cannot be updated." forbidden)))
  else
    let instance := match vd_weight validated_data with
                    | Some v => set_weight instance v
                    | None => instance
                    end in
    let instance := match vd_reps validated_data with
                    | Some v => set_reps instance v
                    | None => instance
                    end in
    Exercise_save instance.

Definition ExerciseSerializer_data (e : Exercise) : gmap string value :=
  {[ "id" := pk_value (exercise_id e); "name" := VStr (exercise_name e);
     "sets" := VInt (sets e); "reps" := VInt (reps e);
     "weight" := VDec (weight e) ]}.

(** *** ProteinSerializer: fields protein_goal, todays_protein (read-only) *)

Definition ProteinSerializer_is_valid (partial : bool) (d : gmap string raw)
    : result (option Z) :=
  match run_field partial false (IntegerField 1 500) d "protein_goal" with
  | inr goal => Ok goal
  | goal => Raise (ValidationError (FieldErrors (errors_of "protein_goal" goal)))
  end.

(** [ModelSerializer.update]: the validated attributes are set and the
    instance saved, every column written. *)
Definition ProteinSerializer_update (instance : User) (goal : option Z)
    : M User :=
  let instance := match goal with
                  | Some v => set_protein_goal instance v
                  | None => instance
                  end in
  User_save instance None.

Definition ProteinSerializer_data (u : User) : gmap string value :=
  {[ "protein_goal" := VInt (protein_goal u);
     "todays_protein" := VInt (todays_protein u) ]}.

End Serializers.

(** ** views.py *)

Section Views.
Context `{Wire} `{Accounts}.

Definition lift {A} (r : result A) : M A := λ db, (r, db).

(** *** CreateUserAPIView: [CreateAPIView.create] *)

Definition CreateUserAPIView_create (today : Z) (d : gmap string raw)
    : M Response :=
  validated_data <- UserSerializer_is_valid d ;;
  instance <- UserSerializer_create today validated_data ;;
  ret (mkResponse 201 (Object (UserSerializer_data instance))).

(** *** WorkoutListCreateAPIView *)

Definition WorkoutListCreateAPIView_get_queryset (request : Request) (db : DB)
    : gmap Z Workout :=
  Workout_filter_owner db (user request).

Definition WorkoutListCreateAPIView_perform_create (request : Request)
    (name : string) : M Workout :=
  WorkoutSerializer_save name (user request).

(** [ListModelMixin.list] *)
Definition WorkoutListCreateAPIView_list (request : Request) : M Response :=
  λ db,
  let queryset := WorkoutListCreateAPIView_get_queryset request db in
  (Ok (mkResponse 200
         (Array (WorkoutSerializer_data <$> workout_instances queryset))), db).

(** [CreateModelMixin.create]: validate, then [perform_create]. *)
Definition WorkoutListCreateAPIView_create (request : Request) : M Response :=
  name <- lift (WorkoutSerializer_is_valid (data request)) ;;
  instance <- WorkoutListCreateAPIView_perform_create request name ;;
  ret (mkResponse 201 (Object (WorkoutSerializer_data instance))).

(** *** WorkoutDestroyAPIView *)

Definition WorkoutDestroyAPIView_get_queryset (request : Request) (db : DB)
    : gmap Z Workout :=
  Workout_filter_owner db (user request).

(** [DestroyModelMixin.destroy]: [get_object] looks [workout_id] up in the
    queryset, then the instance is deleted. *)
Definition WorkoutDestroyAPIView_destroy (request : Request) (workout_id : Z)
    : M Response :=
  instance <- (λ db, get_workout_or_404
                       (WorkoutDestroyAPIView_get_queryset request db)
                       workout_id db) ;;
  _ <- Workout_delete instance ;;
  ret (mkResponse 204 NoContent).

(** *** ExerciseListCreateAPIView *)

Definition ExerciseListCreateAPIView_get_queryset (request : Request)
    (workout_id : Z) : M (gmap Z Exercise) :=
  w <- get_workout (user request) workout_id ;;
  λ db, (Ok (Exercise_filter_workout db w), db).

Definition ExerciseListCreateAPIView_perform_create (request : Request)
    (workout_id : Z) (validated_data : ExerciseData) : M Exercise :=
  w <- get_workout (user request) workout_id ;;
  ExerciseSerializer_save validated_data w.

Definition ExerciseListCreateAPIView_list (request : Request) (workout_id : Z)
    : M Response :=
  queryset <- ExerciseListCreateAPIView_get_queryset request workout_id ;;
  ret (mkResponse 200
         (Array (ExerciseSerializer_data <$> exercise_instances queryset))).

Definition ExerciseListCreateAPIView_create (request : Request)
    (workout_id : Z) : M Response :=
  validated_data <- lift (ExerciseSerializer_is_valid false (data request)) ;;
  instance <- ExerciseListCreateAPIView_perform_create request workout_id
                validated_data ;;
  ret (mkResponse 201 (Object (ExerciseSerializer_data instance))).

(** *** ExerciseRetrieveUpdateDestroyAPIView (patch, delete) *)

Definition ExerciseRetrieveUpdateDestroyAPIView_get_queryset
    (request : Request) (workout_id : Z) : M (gmap Z Exercise) :=
  w <- get_workout (user request) workout_id ;;
  λ db, (Ok (Exercise_filter_workout db w), db).

(** [GenericAPIView.get_object] *)
Definition ExerciseRetrieveUpdateDestroyAPIView_get_object
    (request : Request) (workout_id exercise_id : Z) : M Exercise :=
  queryset <- ExerciseRetrieveUpdateDestroyAPIView_get_queryset request
                workout_id ;;
  get_exercise_or_404 queryset exercise_id.

(** [UpdateModelMixin.partial_update]: [get_object], validation of the
    partial data, then [ExerciseSerializer.update]. *)
Definition ExerciseRetrieveUpdateDestroyAPIView_partial_update
    (request : Request) (workout_id exercise_id : Z) : M Response :=
  instance <- ExerciseRetrieveUpdateDestroyAPIView_get_object request
                workout_id exercise_id ;;
  validated_data <- lift (ExerciseSerializer_is_valid true (data request)) ;;
  instance <- ExerciseSerializer_update instance validated_data ;;
  ret (mkResponse 200 (Object (ExerciseSerializer_data instance))).

Definition ExerciseRetrieveUpdateDestroyAPIView_destroy
    (request : Request) (workout_id exercise_id : Z) : M Response :=
  instance <- ExerciseRetrieveUpdateDestroyAPIView_get_object request
                workout_id exercise_id ;;
  _ <- Exercise_delete instance ;;
  ret (mkResponse 204 NoContent).

(** *** ProteinRetrieveUpdateAPIView (get, patch)

    [request.user] is one object for the whole request: the instance that
    [get_object] returns is the one the next [get_object] starts from.
    [today] is the value of [date.today()] during the request. *)

Definition ProteinRetrieveUpdateAPIView_get_object (today : Z) (u : User)
    : M User :=
  reset_todays_protein today u.

(** [RetrieveModelMixin.retrieve] *)
Definition ProteinRetrieveUpdateAPIView_retrieve (today : Z)
    (request : Request) : M Response :=
  instance <- ProteinRetrieveUpdateAPIView_get_object today (user request) ;;
  ret (mkResponse 200 (Object (ProteinSerializer_data instance))).

(** [UpdateModelMixin.update] with [partial=True] *)
Definition ProteinRetrieveUpdateAPIView_update (today : Z) (u : User)
    (d : gmap string raw) : M Response :=
  instance <- ProteinRetrieveUpdateAPIView_get_object today u ;;
  goal <- lift (ProteinSerializer_is_valid true d) ;;
  instance <- ProteinSerializer_update instance goal ;;
  ret (mkResponse 200 (Object (ProteinSerializer_data instance))).

(** [request.data.get('protein_to_add')], [None] when the key is absent or
    its value is [None]. *)
Definition get_protein_to_add (d : gmap string raw) : option raw :=
  match d !! "protein_to_add" with
  | Some x => if is_None x then None else Some x
  | None => None
  end.

(** [ProteinRetrieveUpdateAPIView.partial_update] *)
Definition ProteinRetrieveUpdateAPIView_partial_update (today : Z)
    (request : Request) : M Response :=
  u <- match get_protein_to_add (data request) with
       | Some protein_to_add =>
           match int_ protein_to_add with
           | ValueOrTypeError =>
               raise (ValidationError
                        (Message "Protein amount must be a valid number."))
           | OtherError => raise (Unhandled "OverflowError")
           | Converted protein_to_add =>
               u <- ProteinRetrieveUpdateAPIView_get_object today
                      (user request) ;;
               add_protein u protein_to_add
           end
       | None => ret (user request)
       end ;;
  ProteinRetrieveUpdateAPIView_update today u (data request).

End Views.

(** ** Concrete collaborators, used to run the model on explicit requests *)

(** A request value described by what each conversion makes of it. *)
Record observed := mkObserved {
  obs_is_None : bool;
  obs_int : conversion;
  obs_to_int : option Z;
  obs_to_str : option string;
  obs_to_decimal : option Decimal
}.

#[global] Instance observed_wire : Wire := {|
  raw := observed;
  is_None := obs_is_None;
  int_ := obs_int;
  to_int := obs_to_int;
  to_str := obs_to_str;
  to_decimal := obs_to_decimal
|}.

(** The JSON integer [n]: [int(n)] is [n], an integer field reads [n], a
    character field reads its decimal notation, a decimal field reads
    [Decimal(str(n))]. *)
Definition json_int (n : Z) : observed :=
  mkObserved false (Converted n) (Some n) (Some (pretty n)) (Some (mkDecimal n 0)).

(** A JSON string [s] that holds no number and no surrounding whitespace:
    only a character field accepts it. *)
Definition json_word (s : string) : observed :=
  mkObserved false ValueOrTypeError None (Some s) None.

(** JSON [null] *)
Definition json_null : observed :=
  mkObserved true ValueOrTypeError None None None.

(** A stand-in for Django's account machinery: no format rule on usernames, a
    minimum password length of 8, and a tagged password as its hash. *)
#[global] Instance sample_accounts : Accounts := {|
  username_validators := λ _, [];
  validate_password := λ p _,
    if bool_decide (len p < 8)
    then ["This password is too short. It must contain at least 8 characters."]
    else [];
  make_password := λ p, String.append "pbkdf2_sha256$" p
|}.

(** A store with two accounts, a workout each, and one exercise. *)
Definition alice : User := mkUser (Some 1) "alice" "pbkdf2_sha256$a" 150 50 10.
Definition bob : User := mkUser (Some 2) "bob" "pbkdf2_sha256$b" 150 0 10.
Definition push_day : Workout := mkWorkout (Some 1) "push day" 1.
Definition leg_day : Workout := mkWorkout (Some 2) "leg day" 2.
Definition squat : Exercise :=
  mkExercise (Some 1) "squat" 5 5 (mkDecimal 10000 (-2)) 2.

Definition sample_db : DB :=
  mkDB (<[1 := alice]> (<[2 := bob]> ∅))
       (<[1 := push_day]> (<[2 := leg_day]> ∅))
       (<[1 := squat]> ∅).

(** PATCH /protein/ by alice with [{"protein_to_add": 0, "protein_goal": 200}]
    and with [{"protein_to_add": 30, "protein_goal": 501}]. *)
Definition patch_zero_protein : Request :=
  mkRequest alice
    {[ "protein_to_add" := json_int 0; "protein_goal" := json_int 200 ]}.
Definition patch_protein_and_bad_goal : Request :=
  mkRequest alice
    {[ "protein_to_add" := json_int 30; "protein_goal" := json_int 501 ]}.

(** POST by alice with the empty body [{}], and with
    [{"name": "pull day", "owner": 2}]. *)
Definition post_empty : Request := mkRequest alice ∅.
Definition post_workout_for_bob : Request :=
  mkRequest alice {[ "name" := json_word "pull day"; "owner" := json_int 2 ]}.

(** POST by alice under her workout 1 with
    [{"name": "bench press", "sets": 1, "reps": 5}]. *)
Definition post_bench_press : Request :=
  mkRequest alice
    {[ "name" := json_word "bench press"; "sets" := json_int 1;
       "reps" := json_int 5 ]}.

(** Registration bodies: a new name, a case variant of it, and a weak
    password. *)
Definition register_Carol : gmap string raw :=
  {[ "username" := json_word "Carol"; "password" := json_word "StrongPass123!" ]}.
Definition register_CAROL : gmap string raw :=
  {[ "username" := json_word "CAROL"; "password" := json_word "StrongPass123!" ]}.
Definition register_weak : gmap string raw :=
  {[ "username" := json_word "dave"; "password" := json_word "short" ]}.

(** ** Store invariants and the footprint of the tenant views *)

(** What the workout and exercise views may do to the store on behalf of
    [u]: nothing, or add, change or delete a row that sits under a workout
    owned by [u]. *)
Inductive tenant_step (u : User) (db : DB) : DB → Prop :=
  | step_none : tenant_step u db db
  | step_workout_added (w : Workout) :
      Some (owner w) = user_id u →
      tenant_step u db
        (set_workouts db (<[fresh_pk (workouts db) := w]> (workouts db)))
  | step_workout_deleted (k : Z) (w : Workout) :
      workouts db !! k = Some w →
      Some (owner w) = user_id u →
      tenant_step u db
        (mkDB (users db) (delete k (workouts db))
              (filter (λ ke, workout ke.2 ≠ k) (exercises db)))
  | step_exercise_added (e : Exercise) (w : Workout) :
      workouts db !! workout e = Some w →
      Some (owner w) = user_id u →
      tenant_step u db
        (set_exercises db (<[fresh_pk (exercises db) := e]> (exercises db)))
  | step_exercise_changed (k : Z) (e0 e : Exercise) (w : Workout) :
      exercises db !! k = Some e0 →
      workout e = workout e0 →
      workouts db !! workout e0 = Some w →
      Some (owner w) = user_id u →
      tenant_step u db (set_exercises db (<[k := e]> (exercises db)))
  | step_exercise_deleted (k : Z) (e0 : Exercise) (w : Workout) :
      exercises db !! k = Some e0 →
      workouts db !! workout e0 = Some w →
      Some (owner w) = user_id u →
      tenant_step u db (set_exercises db (delete k (exercises db))).


(** Every exercise references a stored workout. *)
Definition exercises_have_workouts (db : DB) : Prop :=
  ∀ k e, exercises db !! k = Some e → is_Some (workouts db !! workout e).

(** Stored usernames are lower-case and no two rows share one. *)
Definition usernames_unique (db : DB) : Prop :=
  (∀ k row, users db !! k = Some row → username row = lower (username row))
  ∧ (∀ k1 k2 r1 r2, users db !! k1 = Some r1 → users db !! k2 = Some r2 →
                    username r1 = username r2 → k1 = k2).

(** The names "ÉCOLE" and "école", written with the characters 201 and
    233, an account that holds the second, and the registration body
    [{"username": "ÉCOLE", "password": "StrongPass123!"}]. *)
Definition ECOLE : string := String (Ascii.ascii_of_N 201) "COLE".
Definition ecole : string := String (Ascii.ascii_of_N 233) "cole".
Definition ecole_account : User :=
  mkUser (Some 3) ecole "pbkdf2_sha256$e" 150 0 10.
Definition ecole_db : DB :=
  set_users sample_db (<[3 := ecole_account]> (users sample_db)).
Definition register_ECOLE : gmap string raw :=
  {[ "username" := json_word ECOLE; "password" := json_word "StrongPass123!" ]}.

(** PATCH bodies for bob's exercise 1: read-only and unknown entries beside
    [reps], and a blank [name] beside [reps]. *)
Definition patch_with_extra_keys : Request :=
  mkRequest bob
    {[ "workout" := json_int 1; "id" := json_int 9; "reps" := json_int 3 ]}.
Definition patch_blank_name : Request :=
  mkRequest bob {[ "name" := json_word ""; "reps" := json_int 3 ]}.

(** The instance [User.save] hands to the framework. *)
Definition lowered (u : User) : User :=
  if bool_decide (username u ≠ "") then set_username u (lower (username u))
  else u.

(** The instance and the stored row after [reset_todays_protein]. *)
Definition after_reset (today : Z) (self : User) : User :=
  if decide (protein_last_update self = today) then self
  else lowered (set_protein_last_update (set_todays_protein self 0) today).

Definition row_after_reset (today : Z) (self row : User) : User :=
  if decide (protein_last_update self = today) then row
  else set_todays_protein (set_protein_last_update row today) 0.

(** The counter the cap of [add_protein] is measured against. *)
Definition baseline (today : Z) (self : User) : Z :=
  if decide (protein_last_update self = today) then todays_protein self else 0.

(** * Properties *)

(** ** The store *)

Lemma fresh_pk_above {A} (t : gmap Z A) (k : Z) :
  is_Some (t !! k) → k < fresh_pk t.
Proof.
  unfold fresh_pk.
  apply (map_fold_weak_ind
           (λ r (m : gmap Z A), ∀ k, is_Some (m !! k) → k < 1 + r)).
  - intros k' [x Hx]. by rewrite lookup_empty in Hx.
  - intros i x m r _ IH k' Hk'.
    destruct (decide (i = k')) as [->|Hne].
    + lia.
    + rewrite lookup_insert_ne in Hk' by done. specialize (IH _ Hk'). lia.
Qed.

Lemma fresh_pk_unused {A} (t : gmap Z A) : t !! fresh_pk t = None.
Proof.
  destruct (t !! fresh_pk t) eqn:E; [|done].
  assert (fresh_pk t < fresh_pk t) by (apply fresh_pk_above; eauto). lia.
Qed.

Lemma copy_field_todays_protein (src dst : User) :
  copy_field "todays_protein" src dst
  = set_todays_protein dst (todays_protein src).
Proof. reflexivity. Qed.

Lemma copy_field_protein_last_update (src dst : User) :
  copy_field "protein_last_update" src dst
  = set_protein_last_update dst (protein_last_update src).
Proof. reflexivity. Qed.

Lemma lowered_fields (u : User) :
  user_id (lowered u) = user_id u
  ∧ password (lowered u) = password u
  ∧ protein_goal (lowered u) = protein_goal u
  ∧ todays_protein (lowered u) = todays_protein u
  ∧ protein_last_update (lowered u) = protein_last_update u
  ∧ username (lowered u) = lower (username u).
Proof.
  unfold lowered. case_bool_decide as Hn; simpl; repeat split; try done.
  by rewrite Hn.
Qed.

(** Saving only [todays_protein] of a stored account. *)
Lemma User_save_todays_protein (self : User) (db : DB) (k : Z) (row : User) :
  user_id self = Some k → users db !! k = Some row →
  User_save self (Some ["todays_protein"]) db
  = (Ok (lowered self),
     set_users db (<[k := set_todays_protein row (todays_protein self)]> (users db))).
Proof.
  intros Hid Hrow. unfold User_save. fold (lowered self).
  destruct (lowered_fields self) as (Hi & _ & _ & Ht & _).
  unfold Model_save. simpl. rewrite Hi, Hid, Hrow.
  rewrite copy_field_todays_protein, Ht. reflexivity.
Qed.

(** Saving only the two fields the daily reset changes. *)
Lemma User_save_reset_fields (self : User) (db : DB) (k : Z) (row : User) :
  user_id self = Some k → users db !! k = Some row →
  User_save self (Some ["todays_protein"; "protein_last_update"]) db
  = (Ok (lowered self),
     set_users db
       (<[k := set_todays_protein
                 (set_protein_last_update row (protein_last_update self))
                 (todays_protein self)]> (users db))).
Proof.
  intros Hid Hrow. unfold User_save. fold (lowered self).
  destruct (lowered_fields self) as (Hi & _ & _ & Ht & Hl & _).
  unfold Model_save. simpl. rewrite Hi, Hid, Hrow.
  rewrite copy_field_todays_protein, copy_field_protein_last_update, Ht, Hl.
  reflexivity.
Qed.

Lemma set_users_same (db : DB) (k : Z) (row : User) :
  users db !! k = Some row → set_users db (<[k := row]> (users db)) = db.
Proof. intros Hrow. rewrite insert_id by done. by destruct db. Qed.

Lemma add_protein_accept (self : User) (amount : Z) (db : DB) (k : Z) (row : User) :
  user_id self = Some k → users db !! k = Some row →
  0 < amount → todays_protein self + amount ≤ 500 →
  add_protein self amount db
  = (Ok (lowered (set_todays_protein self (todays_protein self + amount))),
     set_users db
       (<[k := set_todays_protein row (todays_protein self + amount)]>
          (users db))).
Proof.
  intros Hid Hrow Hpos Hcap. unfold add_protein.
  rewrite bool_decide_eq_false_2 by lia.
  rewrite bool_decide_eq_false_2 by lia.
  by rewrite (User_save_todays_protein _ db k row).
Qed.

Lemma add_protein_reject (self : User) (amount : Z) (db : DB) :
  amount ≤ 0 ∨ todays_protein self + amount > 500 →
  ∃ d, add_protein self amount db = (Raise (ValidationError d), db).
Proof.
  intros Hbad. unfold add_protein. case_bool_decide; [eauto|].
  rewrite bool_decide_eq_true_2 by lia. eauto.
Qed.

Lemma reset_run (today : Z) (self : User) (db : DB) (k : Z) (row : User) :
  user_id self = Some k → users db !! k = Some row →
  reset_todays_protein today self db
  = (Ok (after_reset today self),
     set_users db (<[k := row_after_reset today self row]> (users db))).
Proof.
  intros Hid Hrow. unfold reset_todays_protein, after_reset, row_after_reset.
  destruct (decide (protein_last_update self = today)) as [Heq|Hne].
  - rewrite bool_decide_eq_false_2 by (intros ?; done).
    by rewrite set_users_same.
  - rewrite bool_decide_eq_true_2 by done.
    by rewrite (User_save_reset_fields _ db k row).
Qed.

Lemma after_reset_fields (today : Z) (self : User) :
  user_id (after_reset today self) = user_id self
  ∧ protein_goal (after_reset today self) = protein_goal self
  ∧ todays_protein (after_reset today self) = baseline today self
  ∧ protein_last_update (after_reset today self) = today.
Proof.
  unfold after_reset, baseline.
  destruct (decide (protein_last_update self = today)) as [Heq|Hne]; [done|].
  by destruct (lowered_fields
                 (set_protein_last_update (set_todays_protein self 0) today))
    as (Hi & _ & Hg & Ht & Hl & _).
Qed.

Lemma reset_same_day (today : Z) (self : User) (db : DB) :
  protein_last_update self = today →
  reset_todays_protein today self db = (Ok self, db).
Proof.
  intros Heq. unfold reset_todays_protein.
  by rewrite bool_decide_eq_false_2 by (intros ?; done).
Qed.

(** ** The daily counter (models.py) *)

(** C2.  For every stored account and every integer amount, [add_protein]
    raises a ValidationError when the amount is not positive and when
    [todays_protein + amount] exceeds 500, the store being left as it was;
    otherwise it adds exactly the amount to [todays_protein] and writes that
    one column.  An amount that brings the counter to exactly 500 is accepted,
    one more unit is refused. *)
Theorem add_protein_spec (self : User) (amount : Z) (db : DB) (k : Z) (row : User) :
  user_id self = Some k →
  users db !! k = Some row →
  (amount ≤ 0 →
     ∃ d, add_protein self amount db = (Raise (ValidationError d), db))
  ∧ (todays_protein self + amount > 500 →
     ∃ d, add_protein self amount db = (Raise (ValidationError d), db))
  ∧ (0 < amount → todays_protein self + amount ≤ 500 →
     ∃ self',
       add_protein self amount db
       = (Ok self',
          set_users db
            (<[k := set_todays_protein row (todays_protein self + amount)]>
               (users db)))
       ∧ todays_protein self' = todays_protein self + amount
       ∧ protein_goal self' = protein_goal self
       ∧ protein_last_update self' = protein_last_update self)
  ∧ (0 < amount → todays_protein self + amount = 500 →
     (∃ self' db', add_protein self amount db = (Ok self', db')
                   ∧ todays_protein self' = 500)
     ∧ ∃ d, add_protein self (amount + 1) db = (Raise (ValidationError d), db)).
Proof.
  intros Hid Hrow.
  assert (Hok : 0 < amount → todays_protein self + amount ≤ 500 →
    add_protein self amount db
    = (Ok (lowered (set_todays_protein self (todays_protein self + amount))),
       set_users db
         (<[k := set_todays_protein row (todays_protein self + amount)]>
            (users db)))).
  { intros Hpos Hcap. unfold add_protein.
    rewrite bool_decide_eq_false_2 by lia.
    rewrite bool_decide_eq_false_2 by lia.
    by rewrite (User_save_todays_protein _ db k row). }
  split; [|split; [|split]].
  - intros Hle. unfold add_protein. rewrite bool_decide_eq_true_2 by done.
    eauto.
  - intros Hgt. unfold add_protein. case_bool_decide; [eauto|].
    rewrite bool_decide_eq_true_2 by done. eauto.
  - intros Hpos Hcap. eexists. split; [by apply Hok|].
    destruct (lowered_fields
                (set_todays_protein self (todays_protein self + amount)))
      as (_ & _ & Hg & Ht & Hl & _).
    by rewrite Hg, Ht, Hl.
  - intros Hpos Hcap. split.
    + do 2 eexists. split; [apply Hok; lia|].
      destruct (lowered_fields
                  (set_todays_protein self (todays_protein self + amount)))
        as (_ & _ & _ & Ht & _).
      rewrite Ht. simpl. lia.
    + unfold add_protein.
      rewrite bool_decide_eq_false_2 by lia.
      rewrite bool_decide_eq_true_2 by lia. eauto.
Qed.

Lemma add_protein_spec_witness :
  ∃ self',
    add_protein alice 450 sample_db
    = (Ok self',
       set_users sample_db
         (<[1 := set_todays_protein alice (todays_protein alice + 450)]>
            (users sample_db)))
    ∧ todays_protein self' = todays_protein alice + 450
    ∧ protein_goal self' = protein_goal alice
    ∧ protein_last_update self' = protein_last_update alice.
Proof.
  apply (add_protein_spec alice 450 sample_db 1 alice);
    [reflexivity | reflexivity | simpl; lia | simpl; lia].
Defined.

(** C4.  For every stored account, [reset_todays_protein] sets
    [todays_protein] to 0 and [protein_last_update] to the current date and
    writes those two columns only, when the current date differs from
    [protein_last_update]; when the dates are equal it writes nothing and
    returns the instance as it is.  A second reset on the same day is a
    no-op. *)
Theorem reset_todays_protein_spec (today : Z) (self : User) (db : DB) (k : Z)
    (row : User) :
  user_id self = Some k →
  users db !! k = Some row →
  (protein_last_update self ≠ today →
     ∃ self',
       reset_todays_protein today self db
       = (Ok self',
          set_users db
            (<[k := set_todays_protein (set_protein_last_update row today) 0]>
               (users db)))
       ∧ todays_protein self' = 0
       ∧ protein_last_update self' = today
       ∧ protein_goal self' = protein_goal self)
  ∧ (protein_last_update self = today →
     reset_todays_protein today self db = (Ok self, db))
  ∧ (∀ self1 db1,
       reset_todays_protein today self db = (Ok self1, db1) →
       reset_todays_protein today self1 db1 = (Ok self1, db1)).
Proof.
  intros Hid Hrow.
  assert (Hdiff : protein_last_update self ≠ today →
    reset_todays_protein today self db
    = (Ok (lowered (set_protein_last_update (set_todays_protein self 0) today)),
       set_users db
         (<[k := set_todays_protein (set_protein_last_update row today) 0]>
            (users db)))).
  { intros Hne. unfold reset_todays_protein.
    rewrite bool_decide_eq_true_2 by done.
    by rewrite (User_save_reset_fields _ db k row). }
  assert (Hsame : ∀ u d, protein_last_update u = today →
    reset_todays_protein today u d = (Ok u, d)).
  { intros u d Heq. unfold reset_todays_protein.
    rewrite bool_decide_eq_false_2 by (intros ?; done). reflexivity. }
  split; [|split].
  - intros Hne. eexists. split; [by apply Hdiff|].
    destruct (lowered_fields
                (set_protein_last_update (set_todays_protein self 0) today))
      as (_ & _ & Hg & Ht & Hl & _).
    by rewrite Hg, Ht, Hl.
  - apply Hsame.
  - intros self1 db1 Hrun. apply Hsame.
    destruct (decide (protein_last_update self = today)) as [Heq|Hne].
    + rewrite Hsame in Hrun by done. by inversion Hrun; subst.
    + rewrite Hdiff in Hrun by done. inversion Hrun; subst.
      by destruct (lowered_fields
                (set_protein_last_update (set_todays_protein self 0) today))
        as (_ & _ & _ & _ & Hl & _).
Qed.

Lemma reset_todays_protein_spec_witness :
  ∃ self',
    reset_todays_protein 11 alice sample_db
    = (Ok self',
       set_users sample_db
         (<[1 := set_todays_protein (set_protein_last_update alice 11) 0]>
            (users sample_db)))
    ∧ todays_protein self' = 0
    ∧ protein_last_update self' = 11
    ∧ protein_goal self' = protein_goal alice.
Proof.
  apply (reset_todays_protein_spec 11 alice sample_db 1 alice);
    [reflexivity | reflexivity | simpl; lia].
Defined.

(** ** The protein resource (views.py) *)

Section ProteinView.
Context `{Wire}.

(** With an accepted [protein_to_add], the view resets, adds against the
    post-reset counter, writes the counter, and goes on to the serializer
    update with the instance so obtained. *)
Lemma partial_update_add_phase (today : Z) (request : Request) (db : DB)
    (k : Z) (row : User) (x : raw) (n : Z) :
  user_id (user request) = Some k →
  users db !! k = Some row →
  get_protein_to_add (data request) = Some x →
  int_ x = Converted n →
  0 < n → baseline today (user request) + n ≤ 500 →
  ProteinRetrieveUpdateAPIView_partial_update today request db
  = ProteinRetrieveUpdateAPIView_update today
      (lowered (set_todays_protein (after_reset today (user request))
                  (baseline today (user request) + n)))
      (data request)
      (set_users db
         (<[k := set_todays_protein
                   (row_after_reset today (user request) row)
                   (baseline today (user request) + n)]> (users db))).
Proof.
  intros Hid Hrow Hget Hconv Hpos Hcap.
  unfold ProteinRetrieveUpdateAPIView_partial_update.
  rewrite Hget, Hconv. unfold bind at 1. unfold bind at 1.
  unfold ProteinRetrieveUpdateAPIView_get_object.
  rewrite (reset_run today _ db k row) by done.
  destruct (after_reset_fields today (user request)) as (Hi & _ & Ht & _).
  rewrite (add_protein_accept _ n _ k
             (row_after_reset today (user request) row));
    [| by rewrite Hi | by simpl; rewrite lookup_insert_eq
     | done | by rewrite Ht].
  rewrite Ht. unfold set_users; simpl. by rewrite insert_insert_eq.
Qed.

(** A rejected [protein_to_add] ends the request after the reset. *)
Lemma partial_update_reject_phase (today : Z) (request : Request) (db : DB)
    (k : Z) (row : User) (x : raw) (n : Z) :
  user_id (user request) = Some k →
  users db !! k = Some row →
  get_protein_to_add (data request) = Some x →
  int_ x = Converted n →
  n ≤ 0 ∨ baseline today (user request) + n > 500 →
  ∃ d,
    ProteinRetrieveUpdateAPIView_partial_update today request db
    = (Raise (ValidationError d),
       set_users db
         (<[k := row_after_reset today (user request) row]> (users db))).
Proof.
  intros Hid Hrow Hget Hconv Hbad.
  unfold ProteinRetrieveUpdateAPIView_partial_update.
  rewrite Hget, Hconv. unfold bind at 1. unfold bind at 1.
  unfold ProteinRetrieveUpdateAPIView_get_object.
  rewrite (reset_run today _ db k row) by done.
  destruct (after_reset_fields today (user request)) as (_ & _ & Ht & _).
  destruct (add_protein_reject (after_reset today (user request)) n
              (set_users db
                 (<[k := row_after_reset today (user request) row]>
                    (users db)))) as [d Hd].
  { by rewrite Ht. }
  rewrite Hd. eauto.
Qed.

(** A goal the serializer refuses ends the update with nothing written. *)
Lemma update_refused (today : Z) (u : User) (d : gmap string raw) (db : DB)
    (e : exn) :
  protein_last_update u = today →
  ProteinSerializer_is_valid true d = Raise e →
  ProteinRetrieveUpdateAPIView_update today u d db = (Raise e, db).
Proof.
  intros Hday Hbad. unfold ProteinRetrieveUpdateAPIView_update.
  unfold bind at 1. unfold ProteinRetrieveUpdateAPIView_get_object.
  rewrite reset_same_day by done.
  unfold bind at 1. unfold lift. by rewrite Hbad.
Qed.

Lemma goal_out_of_range (d : gmap string raw) (g : raw) (v : Z) :
  d !! "protein_goal" = Some g →
  to_int g = Some v →
  v < 1 ∨ 500 < v →
  ∃ errors,
    ProteinSerializer_is_valid true d
    = Raise (ValidationError (FieldErrors {[ "protein_goal" := errors ]}))
    ∧ (errors = [MaxValue 500] ∨ errors = [MinValue 1]).
Proof.
  intros Hg Hv Hrange. unfold ProteinSerializer_is_valid, run_field.
  rewrite Hg. unfold IntegerField. rewrite Hv.
  destruct Hrange.
  - rewrite bool_decide_eq_false_2 by lia.
    rewrite bool_decide_eq_true_2 by lia. simpl. eauto.
  - rewrite bool_decide_eq_true_2 by lia.
    rewrite bool_decide_eq_false_2 by lia. simpl. eauto.
Qed.

(** C3 (amended).  For every PATCH of the protein resource by a stored
    account that supplies a [protein_to_add] failing validation, the request
    fails with a ValidationError, [protein_goal] is not persisted and no
    protein is added.  When [protein_to_add] is not numeric nothing at all is
    written.  When it is numeric, the daily reset has run first: its write
    ([todays_protein = 0], [protein_last_update = today], made when the
    current date differs from [protein_last_update]) is the only change of
    the store, and the cap is measured against the post-reset counter. *)
Theorem rejected_protein_to_add (today : Z) (request : Request) (db : DB)
    (k : Z) (row : User) (x : raw) :
  user_id (user request) = Some k →
  users db !! k = Some row →
  get_protein_to_add (data request) = Some x →
  (int_ x = ValueOrTypeError →
     ∃ d, ProteinRetrieveUpdateAPIView_partial_update today request db
          = (Raise (ValidationError d), db))
  ∧ (∀ n, int_ x = Converted n →
       n ≤ 0 ∨ baseline today (user request) + n > 500 →
       ∃ d, ProteinRetrieveUpdateAPIView_partial_update today request db
            = (Raise (ValidationError d),
               set_users db
                 (<[k := row_after_reset today (user request) row]>
                    (users db))))
  ∧ protein_goal (row_after_reset today (user request) row) = protein_goal row
  ∧ username (row_after_reset today (user request) row) = username row
  ∧ password (row_after_reset today (user request) row) = password row
  ∧ (protein_last_update (user request) = today →
       set_users db
         (<[k := row_after_reset today (user request) row]> (users db)) = db)
  ∧ (protein_last_update (user request) ≠ today →
       row_after_reset today (user request) row
       = set_todays_protein (set_protein_last_update row today) 0)
  ∧ (∀ n, int_ x = Converted n →
       0 < n → baseline today (user request) + n ≤ 500 →
       ∃ u, ProteinRetrieveUpdateAPIView_partial_update today request db
            = ProteinRetrieveUpdateAPIView_update today u (data request)
                (set_users db
                   (<[k := set_todays_protein
                             (row_after_reset today (user request) row)
                             (baseline today (user request) + n)]>
                      (users db)))
            ∧ todays_protein u = baseline today (user request) + n).
Proof.
  intros Hid Hrow Hget.
  split; [|split; [|split; [|split; [|split; [|split; [|split]]]]]].
  - intros Hconv. unfold ProteinRetrieveUpdateAPIView_partial_update.
    rewrite Hget, Hconv. unfold bind, raise. eauto.
  - intros n Hconv Hbad. by eapply partial_update_reject_phase.
  - unfold row_after_reset. by case_decide.
  - unfold row_after_reset. by case_decide.
  - unfold row_after_reset. by case_decide.
  - intros Hday. unfold row_after_reset. rewrite decide_True by done.
    by apply set_users_same.
  - intros Hday. unfold row_after_reset. by rewrite decide_False by done.
  - intros n Hconv Hpos Hcap. eexists. split.
    + by eapply partial_update_add_phase.
    + by destruct (lowered_fields
                     (set_todays_protein (after_reset today (user request))
                        (baseline today (user request) + n)))
        as (_ & _ & _ & Ht & _).
Qed.

(** C10.  For every PATCH of the protein resource by a stored account that
    supplies an accepted [protein_to_add] together with a [protein_goal]
    outside [1, 500], the addition is written to [todays_protein] before the
    goal is validated: the request fails with a ValidationError on
    [protein_goal], and the store keeps the increased counter. *)
Theorem add_kept_when_goal_refused (today : Z) (request : Request) (db : DB)
    (k : Z) (row : User) (x g : raw) (n v : Z) :
  user_id (user request) = Some k →
  users db !! k = Some row →
  get_protein_to_add (data request) = Some x →
  int_ x = Converted n →
  0 < n → baseline today (user request) + n ≤ 500 →
  data request !! "protein_goal" = Some g →
  to_int g = Some v →
  v < 1 ∨ 500 < v →
  ∃ errors db',
    ProteinRetrieveUpdateAPIView_partial_update today request db
    = (Raise (ValidationError (FieldErrors {[ "protein_goal" := errors ]})),
       db')
    ∧ (todays_protein <$> users db' !! k)
      = Some (baseline today (user request) + n)
    ∧ (protein_goal <$> users db' !! k) = Some (protein_goal row).
Proof.
  intros Hid Hrow Hget Hconv Hpos Hcap Hg Hv Hrange.
  destruct (goal_out_of_range _ _ _ Hg Hv Hrange) as (errors & Hbad & _).
  exists errors. eexists. split; [|split].
  - rewrite (partial_update_add_phase today request db k row x n) by done.
    apply update_refused; [|done].
    destruct (lowered_fields
                (set_todays_protein (after_reset today (user request))
                   (baseline today (user request) + n)))
      as (_ & _ & _ & _ & Hl & _).
    rewrite Hl. simpl.
    by destruct (after_reset_fields today (user request)) as (_ & _ & _ & ?).
  - simpl. by rewrite lookup_insert_eq.
  - simpl. rewrite lookup_insert_eq. simpl.
    unfold row_after_reset. by case_decide.
Qed.

End ProteinView.

Lemma rejected_protein_to_add_witness :
  ∃ d, ProteinRetrieveUpdateAPIView_partial_update 11 patch_zero_protein sample_db
       = (Raise (ValidationError d),
          set_users sample_db
            (<[1 := row_after_reset 11 alice alice]> (users sample_db))).
Proof.
  destruct (rejected_protein_to_add 11 patch_zero_protein sample_db 1 alice
              (json_int 0) eq_refl eq_refl eq_refl) as (_ & Hnum & _).
  apply (Hnum 0); [reflexivity | left; lia].
Defined.

(** C3 as stated fails: on a new day the PATCH [{"protein_to_add": 0,
    "protein_goal": 200}] is refused, yet the stored account has changed, its
    counter reset from 50 to 0 and its date moved from day 10 to day 11. *)
Lemma rejected_add_keeps_reset_write :
  ∃ d db',
    ProteinRetrieveUpdateAPIView_partial_update 11 patch_zero_protein sample_db
    = (Raise (ValidationError d), db')
    ∧ users sample_db !! 1
      = Some (mkUser (Some 1) "alice" "pbkdf2_sha256$a" 150 50 10)
    ∧ users db' !! 1
      = Some (mkUser (Some 1) "alice" "pbkdf2_sha256$a" 150 0 11)
    ∧ db' ≠ sample_db.
Proof.
  do 2 eexists. split; [vm_compute; reflexivity|].
  split; [reflexivity|]. split; [reflexivity|].
  intros Heq. apply (f_equal (λ db, todays_protein <$> users db !! 1)) in Heq.
  vm_compute in Heq. discriminate.
Qed.

Lemma add_kept_when_goal_refused_witness :
  ∃ errors db',
    ProteinRetrieveUpdateAPIView_partial_update 10 patch_protein_and_bad_goal
      sample_db
    = (Raise (ValidationError (FieldErrors {[ "protein_goal" := errors ]})), db')
    ∧ (todays_protein <$> users db' !! 1) = Some (baseline 10 alice + 30)
    ∧ (protein_goal <$> users db' !! 1) = Some (protein_goal alice).
Proof.
  apply (add_kept_when_goal_refused 10 patch_protein_and_bad_goal sample_db 1
           alice (json_int 30) (json_int 501) 30 501);
    [reflexivity | reflexivity | reflexivity | reflexivity | lia
    | vm_compute; discriminate | reflexivity | reflexivity | right; lia].
Defined.

(** ** Ownership (mixins.py, views.py) *)

Section Ownership.
Context `{Wire}.

(** [get_workout] answers the same for a missing workout and for one that
    belongs to somebody else. *)
Lemma get_workout_refused (u : User) (workout_id : Z) (db : DB) :
  workouts db !! workout_id = None
  ∨ (∃ w, workouts db !! workout_id = Some w ∧ Some (owner w) ≠ user_id u) →
  get_workout u workout_id db = (Raise (NotFound "Workout not found"), db).
Proof.
  intros [Hnone | (w & Hw & Hown)]; unfold get_workout, get_workout_row.
  - by rewrite Hnone.
  - rewrite Hw. simpl. by rewrite bool_decide_eq_true_2.
Qed.

Lemma get_workout_granted (u : User) (wid : Z) (db : DB) (w : Workout)
    (db' : DB) :
  get_workout u wid db = (Ok w, db') →
  db' = db
  ∧ workout_id w = Some wid
  ∧ Some (owner w) = user_id u
  ∧ ∃ row, workouts db !! wid = Some row ∧ w = set_workout_id row (Some wid).
Proof.
  unfold get_workout, get_workout_row.
  destruct (workouts db !! wid) as [row|] eqn:Hrow; simpl; [|done].
  case_bool_decide as Hown; [done|].
  intros [= <- <-]. repeat split; eauto.
Qed.

Lemma owner_queryset_refused (u : User) (workout_id : Z) (db : DB) :
  workouts db !! workout_id = None
  ∨ (∃ w, workouts db !! workout_id = Some w ∧ Some (owner w) ≠ user_id u) →
  Workout_filter_owner db u !! workout_id = None.
Proof.
  intros Hcase. unfold Workout_filter_owner.
  apply map_lookup_filter_None.
  destruct Hcase as [Hnone | (w & Hw & Hown)]; [by left|].
  right. intros w' Hw'. simpl. congruence.
Qed.

(** C1 (amended).  For every authenticated requester and every workout id,
    if the workout does not exist or its owner is a different user, then
    deleting the workout and listing, updating or deleting exercises beneath
    it fail with a 404 outcome, and creating an exercise beneath it fails
    with that 404 outcome when the request body passes validation and with
    the body's ValidationError otherwise.  In every case the outcome is the
    same for a missing workout and for a foreign one, and the store is
    unchanged.  An exercise is handed out only under a workout that exists
    and whose owner is the requester. *)
Theorem foreign_workout_is_not_found (request : Request)
    (workout_id exercise_id : Z) (db : DB) :
  (workouts db !! workout_id = None
   ∨ (∃ w, workouts db !! workout_id = Some w
           ∧ Some (owner w) ≠ user_id (user request)) →
     WorkoutDestroyAPIView_destroy request workout_id db = (Raise Http404, db)
     ∧ ExerciseListCreateAPIView_list request workout_id db
       = (Raise (NotFound "Workout not found"), db)
     ∧ ExerciseRetrieveUpdateDestroyAPIView_partial_update request workout_id
         exercise_id db
       = (Raise (NotFound "Workout not found"), db)
     ∧ ExerciseRetrieveUpdateDestroyAPIView_destroy request workout_id
         exercise_id db
       = (Raise (NotFound "Workout not found"), db)
     ∧ ExerciseListCreateAPIView_create request workout_id db
       = (match ExerciseSerializer_is_valid false (data request) with
          | Ok _ => Raise (NotFound "Workout not found")
          | Raise e => Raise e
          end, db)
     ∧ status_code Http404 = 404
     ∧ status_code (NotFound "Workout not found") = 404)
  ∧ (∀ e db',
       ExerciseRetrieveUpdateDestroyAPIView_get_object request workout_id
         exercise_id db = (Ok e, db') →
       workout e = workout_id
       ∧ ∃ w, workouts db !! workout_id = Some w
              ∧ Some (owner w) = user_id (user request))
  ∧ (∀ queryset db',
       ExerciseListCreateAPIView_get_queryset request workout_id db
       = (Ok queryset, db') →
       (∀ k e, queryset !! k = Some e → workout e = workout_id)
       ∧ ∃ w, workouts db !! workout_id = Some w
              ∧ Some (owner w) = user_id (user request)).
Proof.
  split; [|split].
  - intros Hcase.
    pose proof (get_workout_refused (user request) workout_id db Hcase) as Hget.
    pose proof (owner_queryset_refused (user request) workout_id db Hcase)
      as Hq.
    split; [|split; [|split; [|split; [|split; [|done]]]]].
    + unfold WorkoutDestroyAPIView_destroy, bind,
        WorkoutDestroyAPIView_get_queryset, get_workout_or_404.
      by rewrite Hq.
    + unfold ExerciseListCreateAPIView_list,
        ExerciseListCreateAPIView_get_queryset, bind. by rewrite Hget.
    + unfold ExerciseRetrieveUpdateDestroyAPIView_partial_update,
        ExerciseRetrieveUpdateDestroyAPIView_get_object,
        ExerciseRetrieveUpdateDestroyAPIView_get_queryset, bind.
      by rewrite Hget.
    + unfold ExerciseRetrieveUpdateDestroyAPIView_destroy,
        ExerciseRetrieveUpdateDestroyAPIView_get_object,
        ExerciseRetrieveUpdateDestroyAPIView_get_queryset, bind.
      by rewrite Hget.
    + unfold ExerciseListCreateAPIView_create,
        ExerciseListCreateAPIView_perform_create, bind, lift.
      destruct (ExerciseSerializer_is_valid false (data request)); [|done].
      by rewrite Hget.
  - intros e db'.
    unfold ExerciseRetrieveUpdateDestroyAPIView_get_object,
      ExerciseRetrieveUpdateDestroyAPIView_get_queryset, bind.
    destruct (get_workout (user request) workout_id db) as [[w|?] db1] eqn:Hget;
      [|done].
    apply get_workout_granted in Hget as (-> & Hid & Hown & row & Hrow & ->).
    unfold get_exercise_or_404.
    destruct (Exercise_filter_workout db _ !! exercise_id) as [e'|] eqn:He;
      [|done].
    intros [= <- <-]. unfold Exercise_filter_workout in He.
    apply map_lookup_filter_Some in He as [_ Hwk]. simpl in Hwk.
    split; [by injection Hwk | eauto].
  - intros queryset db'.
    unfold ExerciseListCreateAPIView_get_queryset, bind.
    destruct (get_workout (user request) workout_id db) as [[w|?] db1] eqn:Hget;
      [|done].
    apply get_workout_granted in Hget as (-> & Hid & Hown & row & Hrow & ->).
    intros [= <- <-]. split; [|eauto].
    intros k e He. unfold Exercise_filter_workout in He.
    apply map_lookup_filter_Some in He as [_ Hwk]. simpl in Hwk.
    by injection Hwk.
Qed.

End Ownership.

Lemma foreign_workout_is_not_found_witness :
  WorkoutDestroyAPIView_destroy post_empty 2 sample_db = (Raise Http404, sample_db)
  ∧ ExerciseListCreateAPIView_list post_empty 2 sample_db
    = (Raise (NotFound "Workout not found"), sample_db).
Proof.
  destruct (foreign_workout_is_not_found post_empty 2 1 sample_db)
    as [Hrefused _].
  destruct Hrefused as (Hdel & Hlist & _).
  - right. exists leg_day. split; [reflexivity | discriminate].
  - by split.
Defined.

(** C1 as stated fails: alice posts the empty body under bob's workout 2 and
    under the missing workout 99; both requests are answered with the
    ValidationError of the body, status 400, not with NotFound. *)
Lemma create_with_invalid_body_is_not_404 :
  let refused :=
    ValidationError (FieldErrors {[ "name" := [Required]; "sets" := [Required];
                                    "reps" := [Required] ]}) in
  workouts sample_db !! 2 = Some leg_day
  ∧ Some (owner leg_day) ≠ user_id (user post_empty)
  ∧ workouts sample_db !! 99 = None
  ∧ ExerciseListCreateAPIView_create post_empty 2 sample_db
    = (Raise refused, sample_db)
  ∧ ExerciseListCreateAPIView_create post_empty 99 sample_db
    = (Raise refused, sample_db)
  ∧ status_code refused = 400.
Proof.
  simpl. split; [reflexivity|]. split; [discriminate|].
  split; [reflexivity|]. split; [vm_compute; reflexivity|].
  split; [vm_compute; reflexivity | reflexivity].
Qed.

(** ** Workouts (views.py, serializers.py) *)

Section Workouts.
Context `{Wire}.

Lemma WorkoutSerializer_reads_name (d d' : gmap string raw) :
  d' !! "name" = d !! "name" →
  WorkoutSerializer_is_valid d' = WorkoutSerializer_is_valid d.
Proof.
  intros Hname. unfold WorkoutSerializer_is_valid, run_field.
  by rewrite Hname.
Qed.

Lemma workout_instances_spec (q : gmap Z Workout) (w : Workout) :
  w ∈ workout_instances q
  ↔ ∃ k row, q !! k = Some row ∧ w = set_workout_id row (Some k).
Proof.
  unfold workout_instances. rewrite list_elem_of_fmap. split.
  - intros ([k row] & -> & Hin). apply elem_of_map_to_list in Hin. eauto.
  - intros (k & row & Hrow & ->). exists (k, row). split; [done|].
    by apply elem_of_map_to_list.
Qed.

(** C9.  For every authenticated workout-create request that succeeds, the
    stored workout is a new row whose owner is the requesting user; the
    outcome depends on the [name] entry of the body only, so an [owner]
    supplied in the body is ignored.  The workout list returns exactly the
    workouts whose owner is the requester. *)
Theorem workout_owner_is_requester (request : Request) (db : DB) :
  (∀ resp db',
     WorkoutListCreateAPIView_create request db = (Ok resp, db') →
     ∃ uid name,
       user_id (user request) = Some uid
       ∧ workouts db !! fresh_pk (workouts db) = None
       ∧ db' = set_workouts db
                 (<[fresh_pk (workouts db) :=
                      mkWorkout (Some (fresh_pk (workouts db))) name uid]>
                    (workouts db))
       ∧ resp = mkResponse 201
                  (Object (WorkoutSerializer_data
                             (mkWorkout (Some (fresh_pk (workouts db))) name
                                uid))))
  ∧ (∀ d', d' !! "name" = data request !! "name" →
       WorkoutListCreateAPIView_create (mkRequest (user request) d') db
       = WorkoutListCreateAPIView_create request db)
  ∧ WorkoutListCreateAPIView_list request db
    = (Ok (mkResponse 200
             (Array (WorkoutSerializer_data
                       <$> workout_instances
                             (WorkoutListCreateAPIView_get_queryset request
                                db)))), db)
  ∧ (∀ w, w ∈ workout_instances
                (WorkoutListCreateAPIView_get_queryset request db)
          ↔ ∃ k row, workouts db !! k = Some row
                     ∧ Some (owner row) = user_id (user request)
                     ∧ w = set_workout_id row (Some k)).
Proof.
  split; [|split; [|split]].
  - intros resp db'.
    unfold WorkoutListCreateAPIView_create, bind, lift,
      WorkoutListCreateAPIView_perform_create, WorkoutSerializer_save.
    destruct (WorkoutSerializer_is_valid (data request)) as [name|?]; [|done].
    destruct (user_id (user request)) as [uid|]; [|done].
    unfold Workout_save, ret. simpl. intros [= <- <-].
    exists uid, name. split; [done|]. split; [apply fresh_pk_unused|done].
  - intros d' Hname.
    unfold WorkoutListCreateAPIView_create, bind, lift. simpl.
    by rewrite (WorkoutSerializer_reads_name (data request) d').
  - reflexivity.
  - intros w. rewrite workout_instances_spec.
    unfold WorkoutListCreateAPIView_get_queryset, Workout_filter_owner.
    split.
    + intros (k & row & Hrow & ->).
      apply map_lookup_filter_Some in Hrow as [Hrow Hown]. eauto.
    + intros (k & row & Hrow & Hown & ->). exists k, row. split; [|done].
      by apply map_lookup_filter_Some.
Qed.

End Workouts.

Lemma workout_owner_is_requester_witness :
  ∃ uid name,
    user_id (user post_workout_for_bob) = Some uid
    ∧ workouts sample_db !! fresh_pk (workouts sample_db) = None
    ∧ set_workouts sample_db
        (<[3 := mkWorkout (Some 3) "pull day" 1]> (workouts sample_db))
      = set_workouts sample_db
          (<[fresh_pk (workouts sample_db) :=
               mkWorkout (Some (fresh_pk (workouts sample_db))) name uid]>
             (workouts sample_db))
    ∧ mkResponse 201
        (Object (WorkoutSerializer_data (mkWorkout (Some 3) "pull day" 1)))
      = mkResponse 201
          (Object (WorkoutSerializer_data
                     (mkWorkout (Some (fresh_pk (workouts sample_db))) name
                        uid))).
Proof.
  apply (proj1 (workout_owner_is_requester post_workout_for_bob sample_db)).
  vm_compute. reflexivity.
Defined.

(** ** Exercises (serializers.py, views.py) *)

Section Exercises.
Context `{Wire}.

Lemma forbidden_keys (validated_data : ExerciseData) :
  keys validated_data ∖ {[ "weight"; "reps" ]}
  = key_of "name" (vd_name validated_data)
    ∪ key_of "sets" (vd_sets validated_data).
Proof.
  unfold keys.
  destruct (vd_name validated_data), (vd_sets validated_data),
    (vd_reps validated_data), (vd_weight validated_data);
    simpl; by vm_compute.
Qed.

Lemma forbidden_empty (validated_data : ExerciseData) :
  keys validated_data ∖ {[ "weight"; "reps" ]} = ∅
  ↔ vd_name validated_data = None ∧ vd_sets validated_data = None.
Proof.
  rewrite forbidden_keys.
  destruct (vd_name validated_data), (vd_sets validated_data); simpl;
    split; try done; try (by intros [? ?]); intros Hempty;
    exfalso; vm_compute in Hempty; discriminate.
Qed.

Lemma difference_empty_subseteq (X Y : gset string) : X ∖ Y = ∅ ↔ X ⊆ Y.
Proof.
  split.
  - intros Hempty f Hf. destruct (decide (f ∈ Y)) as [|Hn]; [done|].
    assert (f ∈ X ∖ Y) as Hin by (by apply elem_of_difference).
    rewrite Hempty in Hin. by apply not_elem_of_empty in Hin.
  - intros Hsub. apply leibniz_equiv. intros f. split.
    + intros [Hf Hn]%elem_of_difference. by apply Hsub in Hf.
    + by intros ?%not_elem_of_empty.
Qed.

(** [ExerciseSerializer.update] on its validated data: if the supplied
    (validated) fields contain one outside [{reps, weight}], the update
    raises a ValidationError that maps exactly the forbidden field names to
    "This field cannot be updated." and the store is unchanged, also when
    allowed fields were supplied with them; if only fields of
    [{reps, weight}] are supplied, exactly those are replaced on the
    instance, [name], [sets] and [workout] stay, and the instance is
    saved. *)
Theorem exercise_update_spec (instance : Exercise)
    (validated_data : ExerciseData) (db : DB) :
  (keys validated_data ⊈ {[ "weight"; "reps" ]} →
     ExerciseSerializer_update instance validated_data db
     = (Raise (ValidationError (FieldMessage
          (gset_to_gmap "This field cannot be updated."
             (keys validated_data ∖ {[ "weight"; "reps" ]})))), db)
     ∧ ∀ f, gset_to_gmap "This field cannot be updated."
              (keys validated_data ∖ {[ "weight"; "reps" ]}) !! f
            = (if bool_decide (f ∈ keys validated_data
                               ∧ f ∉ ({[ "weight"; "reps" ]} : gset string))
               then Some "This field cannot be updated." else None))
  ∧ (keys validated_data ⊆ {[ "weight"; "reps" ]} →
     ∃ k instance',
       ExerciseSerializer_update instance validated_data db
       = (Ok instance', set_exercises db (<[k := instance']> (exercises db)))
       ∧ exercise_id instance' = Some k
       ∧ k = default (fresh_pk (exercises db)) (exercise_id instance)
       ∧ reps instance' = default (reps instance) (vd_reps validated_data)
       ∧ weight instance'
         = default (weight instance) (vd_weight validated_data)
       ∧ exercise_name instance' = exercise_name instance
       ∧ sets instance' = sets instance
       ∧ workout instance' = workout instance).
Proof.
  split.
  - intros Hforbidden. split.
    + unfold ExerciseSerializer_update.
      rewrite bool_decide_eq_true_2; [done|].
      by rewrite difference_empty_subseteq.
    + intros f. rewrite lookup_gset_to_gmap.
      case_bool_decide as Hf.
      * rewrite option_guard_True; [done|]. by apply elem_of_difference.
      * rewrite option_guard_False; [done|]. by rewrite elem_of_difference.
  - intros Hallowed. unfold ExerciseSerializer_update.
    rewrite bool_decide_eq_false_2
      by (intros Hne; by apply Hne, difference_empty_subseteq).
    unfold Exercise_save. do 2 eexists. split; [reflexivity|].
    destruct instance as [[k|] ? ? ? ? ?];
      destruct (vd_weight validated_data), (vd_reps validated_data);
      simpl; done.
Qed.

(** The PATCH view hands the validated data of the request to
    [ExerciseSerializer.update] and answers with its outcome. *)
Lemma patch_exercise_runs_update (request : Request)
    (workout_id exercise_id : Z) (db : DB) (instance : Exercise)
    (validated_data : ExerciseData) :
  ExerciseRetrieveUpdateDestroyAPIView_get_object request workout_id
    exercise_id db = (Ok instance, db) →
  ExerciseSerializer_is_valid true (data request) = Ok validated_data →
  ExerciseRetrieveUpdateDestroyAPIView_partial_update request workout_id
    exercise_id db
  = match ExerciseSerializer_update instance validated_data db with
    | (Ok instance', db') =>
        (Ok (mkResponse 200 (Object (ExerciseSerializer_data instance'))), db')
    | (Raise e, db') => (Raise e, db')
    end.
Proof.
  intros Hget Hvalid.
  unfold ExerciseRetrieveUpdateDestroyAPIView_partial_update.
  unfold bind at 1. rewrite Hget.
  unfold bind at 1. unfold lift. rewrite Hvalid.
  unfold bind.
  by destruct (ExerciseSerializer_update instance validated_data db)
    as [[?|?] ?].
Qed.

End Exercises.

Lemma exercise_update_spec_witness :
  ExerciseSerializer_update squat
    (mkExerciseData (Some "front squat") None (Some 3) None) sample_db
  = (Raise (ValidationError (FieldMessage
       (gset_to_gmap "This field cannot be updated."
          (keys (mkExerciseData (Some "front squat") None (Some 3) None)
           ∖ {[ "weight"; "reps" ]})))), sample_db)
  ∧ ∃ k instance',
      ExerciseSerializer_update squat (mkExerciseData None None (Some 3) None)
        sample_db
      = (Ok instance',
         set_exercises sample_db (<[k := instance']> (exercises sample_db)))
      ∧ exercise_id instance' = Some k
      ∧ k = default (fresh_pk (exercises sample_db)) (exercise_id squat)
      ∧ reps instance' = 3
      ∧ weight instance' = weight squat
      ∧ exercise_name instance' = exercise_name squat
      ∧ sets instance' = sets squat
      ∧ workout instance' = workout squat.
Proof.
  split.
  - apply (exercise_update_spec squat
             (mkExerciseData (Some "front squat") None (Some 3) None) sample_db).
    intros Hsub. specialize (Hsub "name"). vm_compute in Hsub.
    by specialize (Hsub eq_refl).
  - apply (exercise_update_spec squat (mkExerciseData None None (Some 3) None)
             sample_db).
    apply difference_empty_subseteq. by vm_compute.
Defined.

(** ** Field constraints of an exercise (models.py, serializers.py) *)

Section ExerciseFields.
Context `{Wire}.

Lemma digits_fuel_bound (fuel : nat) (n : Z) :
  0 ≤ n < 10 * 2 ^ Z.of_nat fuel →
  1 ≤ digits_fuel fuel n ∧ n < 10 ^ digits_fuel fuel n.
Proof.
  revert n. induction fuel as [|fuel IH]; intros n Hn; simpl digits_fuel.
  - simpl in Hn. split; [lia|]. change (10 ^ 1) with 10. lia.
  - case_bool_decide as Hsmall.
    + split; [lia|]. change (10 ^ 1) with 10. lia.
    + rewrite Nat2Z.inj_succ, Z.pow_succ_r in Hn by lia.
      destruct (IH (n / 10)) as [Hpos Hlt].
      { split; [apply Z.div_pos; lia|].
        apply Z.div_lt_upper_bound; [lia|].
        assert (0 < 2 ^ Z.of_nat fuel) by (apply Z.pow_pos_nonneg; lia).
        lia. }
      split; [lia|].
      rewrite Z.pow_add_r by lia. change (10 ^ 1) with 10.
      pose proof (Z.div_mod n 10 ltac:(lia)) as Hdm.
      pose proof (Z.mod_pos_bound n 10 ltac:(lia)). lia.
Qed.

Lemma num_digits_bound (n : Z) :
  1 ≤ num_digits n ∧ Z.abs n < 10 ^ num_digits n.
Proof.
  unfold num_digits. apply digits_fuel_bound.
  rewrite Z2Nat.id by apply Z.log2_nonneg.
  split; [lia|].
  destruct (decide (Z.abs n = 0)) as [->|Hnz]; [done|].
  pose proof (Z.log2_spec (Z.abs n) ltac:(lia)) as [_ Hup].
  rewrite Z.pow_succ_r in Hup by apply Z.log2_nonneg. lia.
Qed.

Lemma scaled_below (a p q : Z) :
  0 ≤ a < 10 ^ p → 0 ≤ p → 0 ≤ q → p + q ≤ 5 → a * 10 ^ q < 100000.
Proof.
  intros [Ha Hlt] Hp Hq Hsum.
  assert (0 < 10 ^ q) by (apply Z.pow_pos_nonneg; lia).
  assert (a * 10 ^ q < 10 ^ p * 10 ^ q) by nia.
  rewrite <- Z.pow_add_r in * by lia.
  assert (10 ^ (p + q) ≤ 10 ^ 5) by (apply Z.pow_le_mono_r; lia).
  change (10 ^ 5) with 100000 in *. lia.
Qed.

(** What [validate_precision] with [max_digits=5, decimal_places=2] lets
    through: at most two decimal places, and less than 1000 in size. *)
Lemma validate_precision_accepts (d d' : Decimal) :
  validate_precision 5 2 d = inr d' →
  d' = d ∧ -2 ≤ exp d ∧ Z.abs (coef d) * 10 ^ (exp d + 2) < 100000.
Proof.
  unfold validate_precision.
  destruct (num_digits_bound (coef d)) as [Hpos Hlt].
  case_bool_decide as Hexp; [|case_bool_decide as Hlong];
    repeat (case_bool_decide; [done|]); intros [= <-];
    (split; [done|]); (split; [lia|]);
    apply (scaled_below _ (num_digits (coef d))); lia.
Qed.

Lemma DecimalField_accepts (x : raw) (w : Decimal) :
  DecimalField 5 2 x = inr w →
  ∃ d, to_decimal x = Some d
       ∧ -2 ≤ exp d
       ∧ w = mkDecimal (coef d * 10 ^ (exp d + 2)) (-2)
       ∧ 0 ≤ coef w ≤ 99999.
Proof.
  unfold DecimalField.
  destruct (to_decimal x) as [d|]; [|done].
  destruct (validate_precision 5 2 d) as [?|d'] eqn:Hprec; [done|].
  apply validate_precision_accepts in Hprec as (-> & Hexp & Hsize).
  case_bool_decide as Hneg; [done|]. intros [= <-].
  exists d. unfold quantize in *. simpl in *.
  repeat split; try done; lia.
Qed.

Lemma IntegerField_accepts (min_value max_value : Z) (x : raw) (n : Z) :
  IntegerField min_value max_value x = inr n →
  to_int x = Some n ∧ min_value ≤ n ≤ max_value.
Proof.
  unfold IntegerField. destruct (to_int x) as [m|]; [|done].
  repeat case_bool_decide; simpl; try done.
  intros [= <-]. split; [done | lia].
Qed.

Lemma CharField_accepts (max_length : Z) (x : raw) (s : string) :
  CharField max_length (λ _, []) x = inr s →
  to_str x = Some s ∧ 1 ≤ len s ≤ max_length ∧ has_null_character s = false.
Proof.
  unfold CharField. destruct (to_str x) as [t|]; [|done].
  case_bool_decide as Hblank; [done|].
  case_bool_decide as Hlong; simpl; [done|].
  destruct (has_null_character t) eqn:Hnull; simpl; [done|].
  intros [= <-]. split; [done|]. split; [|done].
  unfold len in *. destruct t; simpl in *; [done | lia].
Qed.

Lemma errors_of_empty {A} (name : string) (r : list ErrorDetail + A) :
  errors_of name r = ∅ → ∃ a, r = inr a.
Proof.
  destruct r as [errors|a]; simpl; [|eauto].
  intros Hempty. by apply map_non_empty_singleton in Hempty.
Qed.

Lemma union_empty_both {A} (m1 m2 : gmap string A) :
  m1 ∪ m2 = ∅ → m1 = ∅ ∧ m2 = ∅.
Proof.
  intros Hempty. split; apply map_eq; intros i; rewrite lookup_empty;
    apply (f_equal (λ m, m !! i)) in Hempty;
    rewrite lookup_empty in Hempty;
    by apply lookup_union_None in Hempty as [? ?].
Qed.

Lemma run_required_field {A} (field : raw → list ErrorDetail + A)
    (d : gmap string raw) (name : string) (v : option A) :
  run_field false true field d name = inr v →
  ∃ x a, d !! name = Some x ∧ field x = inr a ∧ v = Some a.
Proof.
  unfold run_field. destruct (d !! name) as [x|]; simpl; [|done].
  destruct (field x) as [?|a] eqn:Hfield; [done|].
  intros [= <-]. eauto.
Qed.

Lemma run_optional_field {A} (field : raw → list ErrorDetail + A)
    (d : gmap string raw) (name : string) (v : option A) :
  run_field false false field d name = inr v →
  (d !! name = None ∧ v = None)
  ∨ ∃ x a, d !! name = Some x ∧ field x = inr a ∧ v = Some a.
Proof.
  unfold run_field. destruct (d !! name) as [x|]; simpl.
  - destruct (field x) as [?|a] eqn:Hfield; [done|].
    intros [= <-]. right. eauto.
  - intros [= <-]. by left.
Qed.

Lemma ExerciseSerializer_valid_create (d : gmap string raw)
    (validated_data : ExerciseData) :
  ExerciseSerializer_is_valid false d = Ok validated_data →
  (∃ x name, d !! "name" = Some x ∧ CharField 30 (λ _, []) x = inr name
             ∧ vd_name validated_data = Some name)
  ∧ (∃ x n, d !! "sets" = Some x ∧ IntegerField 1 99 x = inr n
            ∧ vd_sets validated_data = Some n)
  ∧ (∃ x n, d !! "reps" = Some x ∧ IntegerField 1 99 x = inr n
            ∧ vd_reps validated_data = Some n)
  ∧ ((d !! "weight" = None ∧ vd_weight validated_data = None)
     ∨ ∃ x w, d !! "weight" = Some x ∧ DecimalField 5 2 x = inr w
              ∧ vd_weight validated_data = Some w).
Proof.
  unfold ExerciseSerializer_is_valid.
  case_bool_decide as Herrors; [|done]. intros [= <-]. simpl.
  apply union_empty_both in Herrors as [Herrors Hweight].
  apply union_empty_both in Herrors as [Herrors Hreps].
  apply union_empty_both in Herrors as [Hname Hsets].
  apply errors_of_empty in Hname as [name Hname].
  apply errors_of_empty in Hsets as [sets Hsets].
  apply errors_of_empty in Hreps as [reps Hreps].
  apply errors_of_empty in Hweight as [weight Hweight].
  rewrite Hname, Hsets, Hreps, Hweight. simpl.
  apply run_required_field in Hname as (? & ? & ? & ? & ->).
  apply run_required_field in Hsets as (? & ? & ? & ? & ->).
  apply run_required_field in Hreps as (? & ? & ? & ? & ->).
  apply run_optional_field in Hweight
    as [[? ->] | (? & ? & ? & ? & ->)]; naive_solver.
Qed.

(** C7.  For every exercise-create request that succeeds, the stored
    exercise is a new row under the addressed workout; its name is the
    supplied text and has 1 to 30 characters; its sets and reps are the
    supplied integers and lie in 1..99; its weight has exactly two decimal
    places and lies in 0.00..999.99, being the supplied decimal, which has
    at most two decimal places; when weight is omitted the stored weight
    is exactly 0.00. *)
Theorem exercise_create_constraints (request : Request) (workout_id : Z)
    (db : DB) (resp : Response) (db' : DB) :
  ExerciseListCreateAPIView_create request workout_id db = (Ok resp, db') →
  ∃ e,
    db' = set_exercises db (<[fresh_pk (exercises db) := e]> (exercises db))
    ∧ exercises db !! fresh_pk (exercises db) = None
    ∧ resp = mkResponse 201 (Object (ExerciseSerializer_data e))
    ∧ exercise_id e = Some (fresh_pk (exercises db))
    ∧ workout e = workout_id
    ∧ (∃ x, data request !! "name" = Some x
            ∧ to_str x = Some (exercise_name e))
    ∧ 1 ≤ len (exercise_name e) ≤ 30
    ∧ (∃ x, data request !! "sets" = Some x ∧ to_int x = Some (sets e))
    ∧ 1 ≤ sets e ≤ 99
    ∧ (∃ x, data request !! "reps" = Some x ∧ to_int x = Some (reps e))
    ∧ 1 ≤ reps e ≤ 99
    ∧ exp (weight e) = -2
    ∧ 0 ≤ coef (weight e) ≤ 99999
    ∧ (data request !! "weight" = None → weight e = mkDecimal 0 (-2))
    ∧ (∀ x, data request !! "weight" = Some x →
         ∃ d, to_decimal x = Some d
              ∧ -2 ≤ exp d
              ∧ weight e = mkDecimal (coef d * 10 ^ (exp d + 2)) (-2)).
Proof.
  unfold ExerciseListCreateAPIView_create,
    ExerciseListCreateAPIView_perform_create, bind, lift.
  destruct (ExerciseSerializer_is_valid false (data request))
    as [validated_data|?] eqn:Hvalid; [|done].
  destruct (get_workout (user request) workout_id db) as [[w|?] db1] eqn:Hget;
    [|done].
  apply get_workout_granted in Hget as (-> & Hid & _).
  apply ExerciseSerializer_valid_create in Hvalid
    as ((xn & name & Hxn & Hname & Hvn) & (xs & s & Hxs & Hsets & Hvs)
        & (xr & r & Hxr & Hreps & Hvr) & Hweight).
  unfold ExerciseSerializer_save. rewrite Hvn, Hvs, Hvr, Hid.
  unfold Exercise_save, ret. simpl. intros [= <- <-].
  apply CharField_accepts in Hname as (Hname & Hlen & _).
  apply IntegerField_accepts in Hsets as (Hsets & Hs).
  apply IntegerField_accepts in Hreps as (Hreps & Hr).
  eexists. split; [reflexivity|]. split; [apply fresh_pk_unused|].
  simpl. do 3 (split; [done|]).
  split; [eauto|]. split; [done|]. split; [eauto|]. split; [done|].
  split; [eauto|]. split; [done|].
  destruct Hweight as [[Hnone ->] | (xw & wt & Hxw & Hwt & ->)]; simpl.
  - split; [done|]. split; [lia|]. split; [done|].
    intros x Hx. congruence.
  - apply DecimalField_accepts in Hwt as (d & Hd & Hexp & -> & Hrange).
    simpl in *. split; [done|]. split; [done|].
    split; [intros Hnone; congruence|].
    intros x Hx. assert (x = xw) as -> by congruence. eauto.
Qed.

End ExerciseFields.

Lemma exercise_create_constraints_witness :
  ∃ e,
    set_exercises sample_db
      (<[2 := mkExercise (Some 2) "bench press" 1 5 (mkDecimal 0 (-2)) 1]>
         (exercises sample_db))
    = set_exercises sample_db
        (<[fresh_pk (exercises sample_db) := e]> (exercises sample_db))
    ∧ exercise_name e = "bench press"
    ∧ weight e = mkDecimal 0 (-2).
Proof.
  destruct (exercise_create_constraints post_bench_press 1 sample_db
              (mkResponse 201
                 (Object (ExerciseSerializer_data
                            (mkExercise (Some 2) "bench press" 1 5
                               (mkDecimal 0 (-2)) 1))))
              (set_exercises sample_db
                 (<[2 := mkExercise (Some 2) "bench press" 1 5
                           (mkDecimal 0 (-2)) 1]> (exercises sample_db))))
    as (e & Hdb & _ & _ & _ & _ & (x & Hx & Hname) & _ & _ & _ & _ & _ & _ & _
        & Hdefault & _).
  - vm_compute. reflexivity.
  - exists e. split; [exact Hdb|]. split.
    + vm_compute in Hx. injection Hx as <-. cbn in Hname. congruence.
    + apply Hdefault. reflexivity.
Defined.

(** ** PATCH of an exercise (views.py, serializers.py) *)

Section ExercisePatch.
Context `{Wire}.

Lemma run_partial_field {A} (required : bool)
    (field : raw → list ErrorDetail + A) (d : gmap string raw) (name : string)
    (v : option A) :
  run_field true required field d name = inr v →
  (d !! name = None ∧ v = None)
  ∨ ∃ x a, d !! name = Some x ∧ field x = inr a ∧ v = Some a.
Proof.
  unfold run_field. destruct (d !! name) as [x|]; simpl.
  - destruct (field x) as [?|a] eqn:Hfield; [done|].
    intros [= <-]. right. eauto.
  - rewrite andb_false_r. intros [= <-]. by left.
Qed.

(** What the validated data of a PATCH body hold: for each of the four
    writable fields, nothing when the body has no such entry, and the
    validated value when it has one. *)
Lemma ExerciseSerializer_valid_partial (d : gmap string raw)
    (validated_data : ExerciseData) :
  ExerciseSerializer_is_valid true d = Ok validated_data →
  ((d !! "name" = None ∧ vd_name validated_data = None)
   ∨ ∃ x a, d !! "name" = Some x ∧ CharField 30 (λ _, []) x = inr a
            ∧ vd_name validated_data = Some a)
  ∧ ((d !! "sets" = None ∧ vd_sets validated_data = None)
     ∨ ∃ x a, d !! "sets" = Some x ∧ IntegerField 1 99 x = inr a
              ∧ vd_sets validated_data = Some a)
  ∧ ((d !! "reps" = None ∧ vd_reps validated_data = None)
     ∨ ∃ x a, d !! "reps" = Some x ∧ IntegerField 1 99 x = inr a
              ∧ vd_reps validated_data = Some a)
  ∧ ((d !! "weight" = None ∧ vd_weight validated_data = None)
     ∨ ∃ x a, d !! "weight" = Some x ∧ DecimalField 5 2 x = inr a
              ∧ vd_weight validated_data = Some a).
Proof.
  unfold ExerciseSerializer_is_valid.
  case_bool_decide as Herrors; [|done]. intros [= <-]. simpl.
  apply union_empty_both in Herrors as [Herrors Hweight].
  apply union_empty_both in Herrors as [Herrors Hreps].
  apply union_empty_both in Herrors as [Hname Hsets].
  apply errors_of_empty in Hname as [name Hname].
  apply errors_of_empty in Hsets as [sets Hsets].
  apply errors_of_empty in Hreps as [reps Hreps].
  apply errors_of_empty in Hweight as [weight Hweight].
  rewrite Hname, Hsets, Hreps, Hweight. simpl.
  apply run_partial_field in Hname, Hsets, Hreps, Hweight.
  done.
Qed.

Lemma elem_of_key_of {A} (name f : string) (v : option A) :
  f ∈ key_of name v ↔ f = name ∧ is_Some v.
Proof.
  destruct v as [a|]; simpl.
  - rewrite elem_of_singleton. split; [eauto|by intros [? _]].
  - split; [by intros ?%not_elem_of_empty | by intros [_ [? ?]]].
Qed.

(** The supplied fields that reach [ExerciseSerializer.update] are the
    entries of the body that belong to the four writable fields. *)
Lemma validated_keys (d : gmap string raw) (validated_data : ExerciseData)
    (f : string) :
  ExerciseSerializer_is_valid true d = Ok validated_data →
  f ∈ keys validated_data
  ↔ f ∈ ({[ "name"; "sets"; "reps"; "weight" ]} : gset string)
    ∧ is_Some (d !! f).
Proof.
  intros (Hname & Hsets & Hreps & Hweight)%ExerciseSerializer_valid_partial.
  unfold keys. rewrite !elem_of_union, !elem_of_key_of, !elem_of_singleton.
  split.
  - intros [[[[-> Hv] | [-> Hv]] | [-> Hv]] | [-> Hv]].
    + split; [by left; left; left|].
      destruct Hname as [[_ Hn] | (x & a & -> & _)]; [|eauto].
      rewrite Hn in Hv. by destruct Hv.
    + split; [by left; left; right|].
      destruct Hsets as [[_ Hn] | (x & a & -> & _)]; [|eauto].
      rewrite Hn in Hv. by destruct Hv.
    + split; [by left; right|].
      destruct Hreps as [[_ Hn] | (x & a & -> & _)]; [|eauto].
      rewrite Hn in Hv. by destruct Hv.
    + split; [by right|].
      destruct Hweight as [[_ Hn] | (x & a & -> & _)]; [|eauto].
      rewrite Hn in Hv. by destruct Hv.
  - intros [[[[-> | ->] | ->] | ->] Hd].
    + left; left; left. split; [done|].
      destruct Hname as [[Hn _] | (x & a & _ & _ & ->)]; [|eauto].
      rewrite Hn in Hd. by destruct Hd.
    + left; left; right. split; [done|].
      destruct Hsets as [[Hn _] | (x & a & _ & _ & ->)]; [|eauto].
      rewrite Hn in Hd. by destruct Hd.
    + left; right. split; [done|].
      destruct Hreps as [[Hn _] | (x & a & _ & _ & ->)]; [|eauto].
      rewrite Hn in Hd. by destruct Hd.
    + right. split; [done|].
      destruct Hweight as [[Hn _] | (x & a & _ & _ & ->)]; [|eauto].
      rewrite Hn in Hd. by destruct Hd.
Qed.

(** C5 (amended).  For every partial update of an exercise the requester
    can reach: when an entry of the body fails the validation of its field,
    the request fails with that validation error and nothing is changed;
    otherwise the supplied fields are the entries of the body among name,
    sets, reps and weight (any other entry, such as id or workout, is
    ignored), and
    - if they contain name or sets, the update fails with a ValidationError
      that maps exactly the supplied fields outside [{reps, weight}] to
      "This field cannot be updated." and nothing is changed, also when
      reps or weight were supplied with them;
    - if they lie within [{reps, weight}], exactly those are replaced by
      their validated values (reps the supplied integer, in 1..99; weight
      the supplied decimal with two places, in 0.00..999.99) and name, sets
      and workout stay as they are. *)
Theorem exercise_patch_spec (request : Request) (wid eid : Z) (db : DB)
    (instance : Exercise) :
  ExerciseRetrieveUpdateDestroyAPIView_get_object request wid eid db
  = (Ok instance, db) →
  (∀ e, ExerciseSerializer_is_valid true (data request) = Raise e →
        ExerciseRetrieveUpdateDestroyAPIView_partial_update request wid eid db
        = (Raise e, db))
  ∧ (∀ validated_data,
       ExerciseSerializer_is_valid true (data request) = Ok validated_data →
       (∀ f, f ∈ keys validated_data
             ↔ f ∈ ({[ "name"; "sets"; "reps"; "weight" ]} : gset string)
               ∧ is_Some (data request !! f))
       ∧ (keys validated_data ⊈ {[ "weight"; "reps" ]} →
          ExerciseRetrieveUpdateDestroyAPIView_partial_update request wid eid
            db
          = (Raise (ValidationError (FieldMessage
               (gset_to_gmap "This field cannot be updated."
                  (keys validated_data ∖ {[ "weight"; "reps" ]})))), db)
          ∧ ∀ f, gset_to_gmap "This field cannot be updated."
                   (keys validated_data ∖ {[ "weight"; "reps" ]}) !! f
                 = (if bool_decide
                         (f ∈ keys validated_data
                          ∧ f ∉ ({[ "weight"; "reps" ]} : gset string))
                    then Some "This field cannot be updated." else None))
       ∧ (keys validated_data ⊆ {[ "weight"; "reps" ]} →
          ∃ k instance',
            ExerciseRetrieveUpdateDestroyAPIView_partial_update request wid
              eid db
            = (Ok (mkResponse 200 (Object (ExerciseSerializer_data instance'))),
               set_exercises db (<[k := instance']> (exercises db)))
            ∧ exercise_id instance' = Some k
            ∧ k = default (fresh_pk (exercises db)) (exercise_id instance)
            ∧ exercise_name instance' = exercise_name instance
            ∧ sets instance' = sets instance
            ∧ workout instance' = workout instance
            ∧ (data request !! "reps" = None → reps instance' = reps instance)
            ∧ (∀ x, data request !! "reps" = Some x →
                 to_int x = Some (reps instance') ∧ 1 ≤ reps instance' ≤ 99)
            ∧ (data request !! "weight" = None →
                 weight instance' = weight instance)
            ∧ (∀ x, data request !! "weight" = Some x →
                 ∃ d, to_decimal x = Some d ∧ -2 ≤ exp d
                      ∧ weight instance'
                        = mkDecimal (coef d * 10 ^ (exp d + 2)) (-2)
                      ∧ 0 ≤ coef (weight instance') ≤ 99999))).
Proof.
  intros Hget. split.
  - intros e Hbad.
    unfold ExerciseRetrieveUpdateDestroyAPIView_partial_update.
    unfold bind at 1. rewrite Hget. unfold bind at 1. unfold lift.
    by rewrite Hbad.
  - intros validated_data Hvalid.
    pose proof (patch_exercise_runs_update request wid eid db instance
                  validated_data Hget Hvalid) as Hview.
    destruct (exercise_update_spec instance validated_data db)
      as [Hforbidden Hallowed].
    split; [|split].
    + intros f. by apply validated_keys.
    + intros Hkeys. destruct (Hforbidden Hkeys) as [Hrun Hmap].
      split; [|done]. by rewrite Hview, Hrun.
    + intros Hkeys.
      destruct (Hallowed Hkeys)
        as (k & instance' & Hrun & Hid & Hk & Hreps & Hweight & Hn & Hs & Hw).
      exists k, instance'. rewrite Hview, Hrun.
      apply ExerciseSerializer_valid_partial in Hvalid
        as (_ & _ & Hvreps & Hvweight).
      repeat (split; [done|]).
      split; [|split; [|split]].
      * intros Hnone. destruct Hvreps as [[_ Hv] | (x & a & Hx & _)];
          [by rewrite Hreps, Hv | congruence].
      * intros x Hx. destruct Hvreps as [[Hnone _] | (x' & a & Hx' & Ha & Hv)];
          [congruence|].
        assert (x' = x) as -> by congruence.
        apply IntegerField_accepts in Ha as [Ha Hrange].
        rewrite Hreps, Hv. simpl. by split.
      * intros Hnone. destruct Hvweight as [[_ Hv] | (x & a & Hx & _)];
          [by rewrite Hweight, Hv | congruence].
      * intros x Hx.
        destruct Hvweight as [[Hnone _] | (x' & a & Hx' & Ha & Hv)];
          [congruence|].
        assert (x' = x) as -> by congruence.
        apply DecimalField_accepts in Ha as (d & Hd & Hexp & -> & Hrange).
        rewrite Hweight, Hv. simpl in *. exists d.
        split; [done|]. split; [done|]. split; [done|]. lia.
Qed.

End ExercisePatch.

Lemma exercise_patch_spec_witness :
  ExerciseRetrieveUpdateDestroyAPIView_partial_update
    (mkRequest bob
       {[ "name" := json_word "front squat"; "reps" := json_int 3 ]})
    2 1 sample_db
  = (Raise (ValidationError (FieldMessage
       (gset_to_gmap "This field cannot be updated."
          (keys (mkExerciseData (Some "front squat") None (Some 3) None)
           ∖ {[ "weight"; "reps" ]})))), sample_db).
Proof.
  destruct (@exercise_patch_spec observed_wire
              (mkRequest bob
                 {[ "name" := json_word "front squat"; "reps" := json_int 3 ]})
              2 1 sample_db (set_exercise_id squat (Some 1)))
    as [_ Hvalid]; [by vm_compute|].
  destruct (Hvalid (mkExerciseData (Some "front squat") None (Some 3) None))
    as (_ & Hforbidden & _); [by vm_compute|].
  apply Hforbidden. intros Hsub. specialize (Hsub "name").
  vm_compute in Hsub. by specialize (Hsub eq_refl).
Defined.

(** C5 as stated fails.  Bob patches his exercise 1 with entries outside
    [{reps, weight}] that are not writable fields ([workout], [id]) beside
    [reps]: the request succeeds and sets reps to 3.  He patches it with a
    blank [name] beside [reps]: the request fails, but with the blank error
    of the name field, not with a "cannot be updated" message. *)
Lemma patch_bodies_outside_the_claim :
  data patch_with_extra_keys
  = {[ "workout" := json_int 1; "id" := json_int 9; "reps" := json_int 3 ]}
  ∧ (reps <$> exercises sample_db !! 1) = Some 5
  ∧ ExerciseRetrieveUpdateDestroyAPIView_partial_update patch_with_extra_keys
      2 1 sample_db
    = (Ok (mkResponse 200
             (Object (ExerciseSerializer_data
                        (mkExercise (Some 1) "squat" 5 3 (mkDecimal 10000 (-2))
                           2)))),
       set_exercises sample_db
         (<[1 := mkExercise (Some 1) "squat" 5 3 (mkDecimal 10000 (-2)) 2]>
            (exercises sample_db)))
  ∧ data patch_blank_name
    = {[ "name" := json_word ""; "reps" := json_int 3 ]}
  ∧ ExerciseRetrieveUpdateDestroyAPIView_partial_update patch_blank_name 2 1
      sample_db
    = (Raise (ValidationError (FieldErrors {[ "name" := [Blank] ]})),
       sample_db)
  ∧ ∀ fields : gmap string string,
      ValidationError (FieldErrors {[ "name" := [Blank] ]})
      ≠ ValidationError (FieldMessage fields).
Proof.
  split; [done|]. split; [by vm_compute|]. split; [by vm_compute|].
  split; [done|]. split; [by vm_compute|]. done.
Qed.

(** ** Case mapping *)

Lemma lower_fold_char (c : Ascii.ascii) :
  lower_char (fold_char c) = lower_char c.
Proof. destruct c as [[] [] [] [] [] [] [] []]; reflexivity. Qed.

Lemma lower_lower_char (c : Ascii.ascii) :
  lower_char (lower_char c) = lower_char c.
Proof. destruct c as [[] [] [] [] [] [] [] []]; reflexivity. Qed.

Lemma lower_char_zero (c : Ascii.ascii) :
  lower_char c = Ascii.zero ↔ c = Ascii.zero.
Proof. destruct c as [[] [] [] [] [] [] [] []]; split; done. Qed.

Lemma lower_fold (s : string) : lower (fold s) = lower s.
Proof.
  induction s as [|c s IH]; simpl; [done|].
  by rewrite lower_fold_char, IH.
Qed.

Lemma lower_lower (s : string) : lower (lower s) = lower s.
Proof.
  induction s as [|c s IH]; simpl; [done|].
  by rewrite lower_lower_char, IH.
Qed.

(** Two strings the database takes for equal up to case have the same
    lower-case form.  The converse fails: [lower] also moves the accented
    capitals, which the database keeps apart from their small letters. *)
Lemma iexact_same_lower (a b : string) : iexact a b = true → lower a = lower b.
Proof.
  unfold iexact. rewrite bool_decide_eq_true. intros Heq.
  by rewrite <- (lower_fold a), <- (lower_fold b), Heq.
Qed.

Lemma len_lower (s : string) : len (lower s) = len s.
Proof.
  unfold len. f_equal. induction s as [|c s IH]; simpl; [done|]. by rewrite IH.
Qed.

Lemma lower_empty (s : string) : lower s = "" ↔ s = "".
Proof. by destruct s. Qed.

Lemma has_null_character_lower (s : string) :
  has_null_character (lower s) = has_null_character s.
Proof.
  unfold has_null_character. apply bool_decide_ext.
  induction s as [|c s IH]; simpl; [done|].
  rewrite !elem_of_cons, IH.
  assert (Ascii.zero = lower_char c ↔ Ascii.zero = c) as ->; [|done].
  split; intros Hz; symmetry; symmetry in Hz; by apply lower_char_zero.
Qed.

(** ** Accounts (serializers.py, models.py) *)

Section AccountCreation.
Context `{Wire} `{Accounts}.

(** Every column written by [User.save]: the username stored is the
    lower-case form of the one the instance held, and no other row held
    it. *)
Lemma User_save_all_columns (self : User) (db : DB) (self' : User) (db' : DB) :
  User_save self None db = (Ok self', db') →
  ∃ k, user_id self' = Some k
       ∧ k = default (fresh_pk (users db)) (user_id self)
       ∧ db' = set_users db (<[k := self']> (users db))
       ∧ username self' = lower (username self)
       ∧ password self' = password self
       ∧ username_taken (users db) (user_id self) (lower (username self))
         = false.
Proof.
  unfold User_save. fold (lowered self).
  destruct (lowered_fields self) as (Hi & Hp & _ & _ & _ & Hu).
  unfold Model_save. rewrite Hi, Hu.
  destruct (username_taken _ _ _); [done|].
  intros [= <- <-]. eexists. split; [reflexivity|]. simpl.
  rewrite Hu, Hp. by destruct (user_id self).
Qed.

Lemma User_save_insert (self : User) (db : DB) :
  user_id self = None →
  username_taken (users db) None (lower (username self)) = false →
  User_save self None db
  = (Ok (set_user_id (lowered self) (Some (fresh_pk (users db)))),
     set_users db
       (<[fresh_pk (users db) :=
            set_user_id (lowered self) (Some (fresh_pk (users db)))]>
          (users db))).
Proof.
  intros Hid Hfree. unfold User_save. fold (lowered self).
  destruct (lowered_fields self) as (Hi & _ & _ & _ & _ & Hu).
  unfold Model_save. by rewrite Hi, Hu, Hid, Hfree.
Qed.

(** A name whose lower-case form no stored username shares is matched by
    no row in the case-insensitive lookup, and its lower-case form is free
    in the unique index. *)
Lemma no_variant_no_match (db : DB) (u : string) :
  (∀ k row, users db !! k = Some row → lower (username row) ≠ lower u) →
  ¬ map_Exists (λ _ row, iexact (username row) u = true) (users db).
Proof.
  intros Hfree (k & row & Hrow & Hmatch)%map_Exists_lookup.
  apply iexact_same_lower in Hmatch. by apply (Hfree k row).
Qed.

Lemma no_variant_not_taken (db : DB) (u : string) :
  (∀ k row, users db !! k = Some row → lower (username row) ≠ lower u) →
  username_taken (users db) None (lower u) = false.
Proof.
  intros Hfree. unfold username_taken. apply bool_decide_eq_false_2.
  intros (k & row & Hrow & _ & Hname)%map_Exists_lookup.
  apply (Hfree k row Hrow). by rewrite Hname, lower_lower.
Qed.

(** What a body that passes [is_valid] looks like. *)
Lemma UserSerializer_valid (d : gmap string raw) (db : DB)
    (validated_data : UserData) (db' : DB) :
  UserSerializer_is_valid d db = (Ok validated_data, db') →
  db' = db
  ∧ (∃ x u, d !! "username" = Some x ∧ to_str x = Some u
            ∧ u ≠ ""
            ∧ len u ≤ 150
            ∧ has_null_character u = false
            ∧ username_validators u = []
            ∧ ¬ map_Exists (λ _ row, iexact (username row) u = true) (users db)
            ∧ vd_username validated_data = lower u)
  ∧ (∃ x, d !! "password" = Some x
          ∧ to_str x = Some (vd_password validated_data)).
Proof.
  unfold UserSerializer_is_valid, run_field. simpl.
  destruct (d !! "username") as [xu|] eqn:Hxu; simpl; [|done].
  unfold CharField at 1.
  destruct (to_str xu) as [u|] eqn:Hu; [|done].
  case_bool_decide as Hblank; [done|].
  destruct (username_validators u) as [|] eqn:Hformat; simpl; [|done].
  destruct (UniqueValidator db u) as [|] eqn:Hunique; simpl; [|done].
  case_bool_decide as Hlong; simpl; [done|].
  destruct (has_null_character u) eqn:Hnull; simpl; [done|].
  unfold validate_username. case_bool_decide as Hiexact; [done|].
  destruct (d !! "password") as [xp|] eqn:Hxp; simpl; [|done].
  destruct (CharField 128 (λ _, []) xp) as [?|p] eqn:Hp; [done|].
  apply CharField_accepts in Hp as (Hp & _).
  intros [= <- <-]. split; [done|]. split; [|eauto].
  exists xu, u. repeat split; first [done | lia].
Qed.

(** A name that the case-insensitive lookup matches with a stored username
    never passes [is_valid]. *)
Lemma case_variant_refused (d : gmap string raw) (db : DB) (x : raw)
    (v : string) (k : Z) (row : User) :
  d !! "username" = Some x → to_str x = Some v → v ≠ "" →
  users db !! k = Some row → iexact (username row) v = true →
  ∃ errors l,
    UserSerializer_is_valid d db
    = (Raise (ValidationError (FieldErrors errors)), db)
    ∧ errors !! "username" = Some l
    ∧ l ≠ []
    ∧ (username_validators v = [] → len v ≤ 150 →
       has_null_character v = false → l = [Text duplicate_username]).
Proof.
  intros Hx Hv Hblank Hrow Hcase.
  assert (∃ l,
    match run_field false true
            (CharField 150 (λ s, username_validators s ++ UniqueValidator db s))
            d "username" with
    | inr (Some v) =>
        match validate_username db v with
        | inl errors => inl errors
        | inr v' => inr (Some v')
        end
    | other => other
    end = inl l
    ∧ l ≠ []
    ∧ (username_validators v = [] → len v ≤ 150 →
       has_null_character v = false → l = [Text duplicate_username]))
    as (l & Hrun & Hne & Hdup).
  { unfold run_field. rewrite Hx. unfold CharField. rewrite Hv.
    rewrite bool_decide_eq_false_2 by done.
    destruct (_ ++ _ ++ _) as [|e errors] eqn:Herrors.
    - unfold validate_username. rewrite bool_decide_eq_true_2.
      + eexists. split; [reflexivity|]. split; done.
      + apply map_Exists_lookup. by exists k, row.
    - eexists. split; [reflexivity|]. split; [done|].
      intros Hformat Hlen Hnull.
      rewrite Hformat, Hnull in Herrors.
      rewrite (bool_decide_eq_false_2 (len v > 150)) in Herrors by lia.
      simpl in Herrors. rewrite app_nil_r in Herrors.
      unfold UniqueValidator in Herrors.
      by case_bool_decide. }
  exists (errors_of "username" (inl l : list ErrorDetail + option string)
          ∪ errors_of "password"
              (run_field false true (CharField 128 (λ _, [])) d "password")),
    l.
  split; [|split; [|done]].
  - unfold UserSerializer_is_valid. by rewrite Hrun.
  - apply lookup_union_Some_l. simpl. by rewrite lookup_singleton_eq.
Qed.

(** A body whose fields are well formed, whose username shares its
    lower-case form with no stored username and whose password the
    validator is asked about, passes [is_valid] with the lower-cased
    username. *)
Lemma UserSerializer_accepts (d : gmap string raw) (db : DB) (xu xp : raw)
    (u p : string) :
  d !! "username" = Some xu → to_str xu = Some u →
  1 ≤ len u ≤ 150 → has_null_character u = false →
  username_validators u = [] →
  (∀ k row, users db !! k = Some row → lower (username row) ≠ lower u) →
  d !! "password" = Some xp → to_str xp = Some p →
  1 ≤ len p ≤ 128 → has_null_character p = false →
  UserSerializer_is_valid d db = (Ok (mkUserData (lower u) p), db).
Proof.
  intros Hxu Hu Hlenu Hnullu Hformat Hfree Hxp Hp Hlenp Hnullp.
  assert (u ≠ "") as Hu0
    by (intros ->; unfold len in Hlenu; simpl in Hlenu; lia).
  assert (p ≠ "") as Hp0
    by (intros ->; unfold len in Hlenp; simpl in Hlenp; lia).
  unfold UserSerializer_is_valid, run_field. rewrite Hxu, Hxp.
  unfold CharField. rewrite Hu, Hp, Hformat, Hnullu, Hnullp.
  rewrite (bool_decide_eq_false_2 (u = "")) by done.
  rewrite (bool_decide_eq_false_2 (p = "")) by done.
  rewrite (bool_decide_eq_false_2 (len u > 150)) by lia.
  rewrite (bool_decide_eq_false_2 (len p > 128)) by lia.
  unfold UniqueValidator. rewrite bool_decide_eq_false_2.
  - simpl. unfold validate_username.
    by rewrite bool_decide_eq_false_2 by by apply no_variant_no_match.
  - intros (k & row & Hrow & Hname)%map_Exists_lookup.
    apply (Hfree k row Hrow). by rewrite Hname.
Qed.

(** The new account [UserSerializer.create] saves for an accepted body. *)
Lemma UserSerializer_create_saves (today : Z) (db : DB) (u p : string) :
  (∀ k row, users db !! k = Some row → lower (username row) ≠ lower u) →
  validate_password p (mkUser None (lower u) "" 150 0 today) = [] →
  UserSerializer_create today (mkUserData (lower u) p) db
  = (Ok (mkUser (Some (fresh_pk (users db))) (lower u) (make_password p)
           150 0 today),
     set_users db
       (<[fresh_pk (users db) :=
            mkUser (Some (fresh_pk (users db))) (lower u) (make_password p)
                   150 0 today]> (users db))).
Proof.
  intros Hfree Hstrong. unfold UserSerializer_create. simpl. rewrite Hstrong.
  rewrite User_save_insert; [|done|].
  - unfold lowered. simpl. case_bool_decide; simpl; by rewrite ?lower_lower.
  - simpl. rewrite lower_lower. by apply no_variant_not_taken.
Qed.

(** When the case-insensitive lookup matches a stored username with the
    submitted one, registration fails with a ValidationError on [username]
    and the store is unchanged; the error is the duplicate-username message
    whenever the submitted name passes the checks of its field. *)
Theorem matched_username_is_refused (today : Z) (d : gmap string raw)
    (db : DB) (x : raw) (v : string) (k : Z) (row : User) :
  d !! "username" = Some x → to_str x = Some v → v ≠ "" →
  users db !! k = Some row →
  iexact (username row) v = true →
  ∃ errors l,
    CreateUserAPIView_create today d db
    = (Raise (ValidationError (FieldErrors errors)), db)
    ∧ errors !! "username" = Some l
    ∧ l ≠ []
    ∧ (username_validators v = [] → len v ≤ 150 →
       has_null_character v = false → l = [Text duplicate_username]).
Proof.
  intros Hx Hv Hblank Hrow Hmatch.
  destruct (case_variant_refused d db x v k row Hx Hv Hblank Hrow Hmatch)
    as (errors & l & Hrefused & Hl & Hne & Hdup).
  exists errors, l. split; [|done].
  unfold CreateUserAPIView_create. unfold bind at 1. by rewrite Hrefused.
Qed.

(** C8.  For every account-creation request: when it succeeds, one account
    row is added and the response body holds exactly its id and username,
    so no [password] entry; when the body passes field validation and the
    password validator rejects the password, the request fails with a
    ValidationError that maps [password] to the validator's messages, and
    no account row is persisted; and a well-formed body with a username of
    which the store holds no case variant and a password the validator
    accepts does succeed: the answer is 201 with the id and the lower-cased
    username of the row that was persisted. *)
Theorem create_user_response (today : Z) (d : gmap string raw) (db : DB) :
  (∀ resp db',
     CreateUserAPIView_create today d db = (Ok resp, db') →
     ∃ row,
       users db !! fresh_pk (users db) = None
       ∧ db' = set_users db (<[fresh_pk (users db) := row]> (users db))
       ∧ user_id row = Some (fresh_pk (users db))
       ∧ resp = mkResponse 201
                  (Object {[ "id" := VInt (fresh_pk (users db));
                             "username" := VStr (username row) ]})
       ∧ ∀ fields, body resp = Object fields →
           fields !! "password" = None
           ∧ dom fields = {[ "id"; "username" ]})
  ∧ (∀ validated_data,
       UserSerializer_is_valid d db = (Ok validated_data, db) →
       validate_password (vd_password validated_data)
         (mkUser None (vd_username validated_data) "" 150 0 today) ≠ [] →
       CreateUserAPIView_create today d db
       = (Raise (ValidationError (FieldErrors
            {[ "password" :=
                 Text <$> validate_password (vd_password validated_data)
                            (mkUser None (vd_username validated_data) ""
                               150 0 today) ]})), db))
  ∧ (∀ xu xp u p,
       d !! "username" = Some xu → to_str xu = Some u →
       1 ≤ len u ≤ 150 → has_null_character u = false →
       username_validators u = [] →
       (∀ k row, users db !! k = Some row → lower (username row) ≠ lower u) →
       d !! "password" = Some xp → to_str xp = Some p →
       1 ≤ len p ≤ 128 → has_null_character p = false →
       validate_password p (mkUser None (lower u) "" 150 0 today) = [] →
       ∃ row,
         CreateUserAPIView_create today d db
         = (Ok (mkResponse 201
                  (Object {[ "id" := VInt (fresh_pk (users db));
                             "username" := VStr (lower u) ]})),
            set_users db (<[fresh_pk (users db) := row]> (users db)))
         ∧ user_id row = Some (fresh_pk (users db))
         ∧ username row = lower u
         ∧ users db !! fresh_pk (users db) = None).
Proof.
  split; [|split].
  - intros resp db' Hrun.
    unfold CreateUserAPIView_create in Hrun. unfold bind at 1 in Hrun.
    destruct (UserSerializer_is_valid d db) as [[validated_data|?] db0]
      eqn:Hvalid; [|done].
    apply UserSerializer_valid in Hvalid as (-> & _).
    unfold bind at 1 in Hrun.
    destruct (UserSerializer_create today validated_data db)
      as [[instance|?] db0] eqn:Hcreate; [|done].
    unfold ret in Hrun. injection Hrun as <- <-.
    unfold UserSerializer_create in Hcreate.
    destruct (validate_password _ _); [|done].
    apply User_save_all_columns in Hcreate as (k & Hid & -> & -> & _).
    simpl in *. exists instance.
    split; [apply fresh_pk_unused|]. split; [done|]. split; [done|].
    unfold UserSerializer_data. rewrite Hid. simpl. split; [done|].
    intros fields [= <-]. split.
    + rewrite lookup_insert_ne by done. by rewrite lookup_singleton_ne.
    + rewrite dom_insert_L, dom_singleton_L. done.
  - intros validated_data Hvalid Hweak.
    unfold CreateUserAPIView_create. unfold bind at 1. rewrite Hvalid.
    unfold bind at 1. unfold UserSerializer_create.
    by destruct (validate_password _ _).
  - intros xu xp u p Hxu Hu Hlenu Hnullu Hformat Hfree Hxp Hp Hlenp Hnullp
      Hstrong.
    eexists. split; [|split; [|split]].
    + unfold CreateUserAPIView_create. unfold bind at 1.
      rewrite (UserSerializer_accepts d db xu xp u p) by done.
      unfold bind at 1. rewrite UserSerializer_create_saves by done.
      reflexivity.
    + done.
    + done.
    + apply fresh_pk_unused.
Qed.

End AccountCreation.

(** C6.  The claim fails on the code for a case variant outside the ASCII
    letters.  With the account "école" stored, registering "ÉCOLE" passes
    [validate_username], because the case-insensitive lookup of the database
    does not match the two names; [User.save] then lower-cases the name to
    "école" and the unique index refuses the row: the request ends in an
    unhandled IntegrityError (status 500), not in a duplicate-username
    ValidationError.  No record is persisted. *)
Theorem accented_case_variant_hits_unique_index :
  users ecole_db !! 3 = Some ecole_account
  ∧ username ecole_account = ecole
  ∧ lower ECOLE = ecole
  ∧ validate_username ecole_db ECOLE = inr ecole
  ∧ CreateUserAPIView_create 11 register_ECOLE ecole_db
    = (Raise (Unhandled "IntegrityError"), ecole_db)
  ∧ status_code (Unhandled "IntegrityError") = 500.
Proof. repeat split; by vm_compute. Qed.

Lemma matched_username_is_refused_witness :
  ∃ errors l,
    CreateUserAPIView_create 11 register_CAROL
      (set_users sample_db
         (<[3 := mkUser (Some 3) "carol" "pbkdf2_sha256$StrongPass123!" 150 0 10]>
            (users sample_db)))
    = (Raise (ValidationError (FieldErrors errors)),
       set_users sample_db
         (<[3 := mkUser (Some 3) "carol" "pbkdf2_sha256$StrongPass123!" 150 0 10]>
            (users sample_db)))
    ∧ errors !! "username" = Some l
    ∧ l ≠ []
    ∧ (username_validators "CAROL" = [] → len "CAROL" ≤ 150 →
       has_null_character "CAROL" = false → l = [Text duplicate_username]).
Proof.
  apply (@matched_username_is_refused observed_wire sample_accounts 11
           register_CAROL
           (set_users sample_db
              (<[3 := mkUser (Some 3) "carol" "pbkdf2_sha256$StrongPass123!"
                        150 0 10]> (users sample_db)))
           (json_word "CAROL") "CAROL" 3
           (mkUser (Some 3) "carol" "pbkdf2_sha256$StrongPass123!" 150 0 10));
    try reflexivity. discriminate.
Defined.

Lemma sample_db_users (k : Z) (row : User) :
  users sample_db !! k = Some row →
  (k = 1 ∧ row = alice) ∨ (k = 2 ∧ row = bob).
Proof.
  unfold sample_db. simpl. intros Hrow.
  destruct (decide (k = 1)) as [->|Hne1].
  - rewrite lookup_insert_eq in Hrow. left. split; congruence.
  - rewrite lookup_insert_ne in Hrow by done.
    destruct (decide (k = 2)) as [->|Hne2].
    + rewrite lookup_insert_eq in Hrow. right. split; congruence.
    + rewrite lookup_insert_ne in Hrow by done. by rewrite lookup_empty in Hrow.
Qed.

Lemma create_user_response_witness :
  ∃ row,
    CreateUserAPIView_create 10 register_Carol sample_db
    = (Ok (mkResponse 201
             (Object {[ "id" := VInt (fresh_pk (users sample_db));
                        "username" := VStr (lower "Carol") ]})),
       set_users sample_db (<[fresh_pk (users sample_db) := row]>
                              (users sample_db)))
    ∧ user_id row = Some (fresh_pk (users sample_db))
    ∧ username row = lower "Carol"
    ∧ users sample_db !! fresh_pk (users sample_db) = None.
Proof.
  destruct (@create_user_response observed_wire sample_accounts 10
              register_Carol sample_db) as (_ & _ & Hcreated).
  apply (Hcreated (json_word "Carol") (json_word "StrongPass123!") "Carol"
           "StrongPass123!"); try reflexivity; try (by vm_compute).
  intros k row [[-> ->] | [-> ->]]%sample_db_users; by vm_compute.
Defined.

(** ** Scenarios, run on the sample store *)

(** Bob adds 30 g on day 10: the counter goes from 0 to 30; 480 g on top is
    refused (30 + 480 > 500) and the counter stays at 30. *)
Example add_30_then_480 :
  ∃ bob' db',
    add_protein bob 30 sample_db = (Ok bob', db')
    ∧ todays_protein bob' = 30
    ∧ (todays_protein <$> users db' !! 2) = Some 30
    ∧ add_protein bob' 480 db'
      = (Raise (ValidationError
                  (Message "Todays protein cannot be greater than 500.")), db').
Proof. do 2 eexists. split; [vm_compute; reflexivity|]. by vm_compute. Qed.

(** Alice lists her workouts: only "push day" comes back. *)
Example alice_lists_her_workouts :
  WorkoutListCreateAPIView_list post_empty sample_db
  = (Ok (mkResponse 200
           (Array [ {[ "id" := VInt 1; "name" := VStr "push day";
                       "owner" := VInt 1 ]} ])), sample_db).
Proof. by vm_compute. Qed.

(** A workout name of 30 characters is accepted, one of 31 and the empty
    name are refused. *)
Example workout_name_lengths :
  WorkoutSerializer_is_valid
    {[ "name" := json_word "123456789012345678901234567890" ]}
  = Ok "123456789012345678901234567890"
  ∧ WorkoutSerializer_is_valid
      {[ "name" := json_word "1234567890123456789012345678901" ]}
    = Raise (ValidationError (FieldErrors {[ "name" := [MaxLength 30] ]}))
  ∧ WorkoutSerializer_is_valid {[ "name" := json_word "" ]}
    = Raise (ValidationError (FieldErrors {[ "name" := [Blank] ]})).
Proof. repeat split; by vm_compute. Qed.

(** Bob patches his exercise 1 under workout 2: [{"name": "x"}] is refused
    and nothing changes; [{"reps": 3}] sets reps to 3 and keeps the rest. *)
Example bob_patches_squat :
  ExerciseRetrieveUpdateDestroyAPIView_partial_update
    (mkRequest bob {[ "name" := json_word "x" ]}) 2 1 sample_db
  = (Raise (ValidationError (FieldMessage
       {[ "name" := "This field cannot be updated." ]})), sample_db)
  ∧ ExerciseRetrieveUpdateDestroyAPIView_partial_update
      (mkRequest bob {[ "reps" := json_int 3 ]}) 2 1 sample_db
    = (Ok (mkResponse 200
             (Object (ExerciseSerializer_data
                        (mkExercise (Some 1) "squat" 5 3 (mkDecimal 10000 (-2)) 2)))),
       set_exercises sample_db
         (<[1 := mkExercise (Some 1) "squat" 5 3 (mkDecimal 10000 (-2)) 2]>
            (exercises sample_db))).
Proof. split; by vm_compute. Qed.

(** A weight of 1000 is refused, 999.99 is stored as given, 12.5 is stored
    as 12.50. *)
Example weight_bounds :
  DecimalField 5 2 (json_int 1000) = inl [MaxWholeDigits 3]
  ∧ DecimalField 5 2
      (mkObserved false ValueOrTypeError None (Some "999.99")
         (Some (mkDecimal 99999 (-2))))
    = inr (mkDecimal 99999 (-2))
  ∧ DecimalField 5 2
      (mkObserved false ValueOrTypeError None (Some "12.5")
         (Some (mkDecimal 125 (-1))))
    = inr (mkDecimal 1250 (-2))
  ∧ DecimalField 5 2 (json_int (-1)) = inl [MinValue 0].
Proof. repeat split; by vm_compute. Qed.

(** * Further properties of the views *)

(** ** What an owner can do with workouts and exercises *)

Section Tenancy.
Context `{Wire}.

Lemma get_workout_owned (u : User) (wid : Z) (db : DB) (row : Workout) :
  workouts db !! wid = Some row → Some (owner row) = user_id u →
  get_workout u wid db = (Ok (set_workout_id row (Some wid)), db).
Proof.
  intros Hrow Hown. unfold get_workout, get_workout_row. rewrite Hrow. simpl.
  by rewrite bool_decide_eq_false_2 by (intros Hne; by apply Hne).
Qed.

Lemma exercise_queryset_lookup (db : DB) (row : Workout) (wid k : Z)
    (e : Exercise) :
  Exercise_filter_workout db (set_workout_id row (Some wid)) !! k = Some e
  ↔ exercises db !! k = Some e ∧ workout e = wid.
Proof.
  unfold Exercise_filter_workout. rewrite map_lookup_filter_Some. simpl.
  split; intros [He Hw]; (split; [done|]); congruence.
Qed.

(** The owner deletes a workout: the answer is 204, the workout row is gone,
    every exercise beneath it is gone with it, and every other workout,
    every exercise of another workout and every account stay as they are. *)
Theorem owner_deletes_workout (request : Request) (wid : Z) (db : DB)
    (row : Workout) :
  workouts db !! wid = Some row →
  Some (owner row) = user_id (user request) →
  ∃ db',
    WorkoutDestroyAPIView_destroy request wid db
    = (Ok (mkResponse 204 NoContent), db')
    ∧ users db' = users db
    ∧ workouts db' !! wid = None
    ∧ (∀ k, k ≠ wid → workouts db' !! k = workouts db !! k)
    ∧ (∀ k e, exercises db' !! k = Some e
              ↔ exercises db !! k = Some e ∧ workout e ≠ wid).
Proof.
  intros Hrow Hown. eexists. split; [|split; [|split; [|split]]].
  - unfold WorkoutDestroyAPIView_destroy, bind,
      WorkoutDestroyAPIView_get_queryset, get_workout_or_404,
      Workout_filter_owner.
    rewrite (map_lookup_filter_Some_2 _ _ wid row) by done.
    reflexivity.
  - done.
  - simpl. apply lookup_delete_eq.
  - intros k Hk. simpl. by apply lookup_delete_ne.
  - intros k e. simpl. by rewrite map_lookup_filter_Some.
Qed.


(** Under a workout the requester owns, an exercise id that is not stored,
    or that belongs to another workout, is answered with the framework's 404
    by PATCH and by DELETE, before the body is looked at, and nothing is
    written. *)
Theorem exercise_of_another_workout_is_404 (request : Request)
    (wid eid : Z) (db : DB) (row : Workout) :
  workouts db !! wid = Some row →
  Some (owner row) = user_id (user request) →
  exercises db !! eid = None
  ∨ (∃ e, exercises db !! eid = Some e ∧ workout e ≠ wid) →
  ExerciseRetrieveUpdateDestroyAPIView_partial_update request wid eid db
  = (Raise Http404, db)
  ∧ ExerciseRetrieveUpdateDestroyAPIView_destroy request wid eid db
    = (Raise Http404, db).
Proof.
  intros Hrow Hown Hcase.
  assert (ExerciseRetrieveUpdateDestroyAPIView_get_object request wid eid db
          = (Raise Http404, db)) as Hget.
  { unfold ExerciseRetrieveUpdateDestroyAPIView_get_object,
      ExerciseRetrieveUpdateDestroyAPIView_get_queryset, bind.
    rewrite (get_workout_owned _ _ _ row) by done.
    unfold get_exercise_or_404.
    destruct (Exercise_filter_workout db _ !! eid) as [e|] eqn:He; [|done].
    apply exercise_queryset_lookup in He as [He Hw].
    destruct Hcase as [Hnone | (e' & He' & Hne)]; congruence. }
  split.
  - unfold ExerciseRetrieveUpdateDestroyAPIView_partial_update.
    unfold bind at 1. by rewrite Hget.
  - unfold ExerciseRetrieveUpdateDestroyAPIView_destroy.
    unfold bind at 1. by rewrite Hget.
Qed.


Lemma exercise_instances_spec (q : gmap Z Exercise) (e : Exercise) :
  e ∈ exercise_instances q
  ↔ ∃ k row, q !! k = Some row ∧ e = set_exercise_id row (Some k).
Proof.
  unfold exercise_instances. rewrite list_elem_of_fmap. split.
  - intros ([k row] & -> & Hin). apply elem_of_map_to_list in Hin. eauto.
  - intros (k & row & Hrow & ->). exists (k, row). split; [done|].
    by apply elem_of_map_to_list.
Qed.

(** The owner lists the exercises of a workout: the answer is 200, the store
    is not written, and the instances serialized are exactly the stored
    exercises that reference this workout. *)
Theorem owner_lists_exercises (request : Request) (wid : Z) (db : DB)
    (row : Workout) :
  workouts db !! wid = Some row →
  Some (owner row) = user_id (user request) →
  ∃ instances,
    ExerciseListCreateAPIView_list request wid db
    = (Ok (mkResponse 200 (Array (ExerciseSerializer_data <$> instances))), db)
    ∧ ∀ e, e ∈ instances
           ↔ ∃ k stored, exercises db !! k = Some stored
                         ∧ workout stored = wid
                         ∧ e = set_exercise_id stored (Some k).
Proof.
  intros Hrow Hown. eexists. split.
  - unfold ExerciseListCreateAPIView_list,
      ExerciseListCreateAPIView_get_queryset. unfold bind at 1. unfold bind at 1.
    rewrite (get_workout_owned _ _ _ row) by done. reflexivity.
  - intros e. rewrite exercise_instances_spec. split.
    + intros (k & stored & [Hs Hw]%exercise_queryset_lookup & ->). eauto.
    + intros (k & stored & Hs & Hw & ->). exists k, stored.
      split; [|done]. by apply exercise_queryset_lookup.
Qed.


(** Creating a workout: a missing name, an empty name and a name of more
    than 30 characters are refused with a ValidationError on [name] and
    nothing is stored; any other name of an authenticated user is stored
    under a fresh key, all earlier workouts kept. *)
Theorem workout_create_outcome (request : Request) (db : DB) (uid : Z) :
  user_id (user request) = Some uid →
  (data request !! "name" = None →
     WorkoutListCreateAPIView_create request db
     = (Raise (ValidationError (FieldErrors {[ "name" := [Required] ]})), db))
  ∧ (∀ x, data request !! "name" = Some x → to_str x = Some "" →
       WorkoutListCreateAPIView_create request db
       = (Raise (ValidationError (FieldErrors {[ "name" := [Blank] ]})), db))
  ∧ (∀ x s, data request !! "name" = Some x → to_str x = Some s →
       len s > 30 →
       ∃ errors,
         WorkoutListCreateAPIView_create request db
         = (Raise (ValidationError (FieldErrors {[ "name" := errors ]})), db)
         ∧ MaxLength 30 ∈ errors)
  ∧ (∀ x s, data request !! "name" = Some x → to_str x = Some s →
       1 ≤ len s ≤ 30 → has_null_character s = false →
       ∃ db',
         WorkoutListCreateAPIView_create request db
         = (Ok (mkResponse 201
                  (Object {[ "id" := VInt (fresh_pk (workouts db));
                             "name" := VStr s; "owner" := VInt uid ]})), db')
         ∧ workouts db' !! fresh_pk (workouts db)
           = Some (mkWorkout (Some (fresh_pk (workouts db))) s uid)
         ∧ ∀ k w, workouts db !! k = Some w → workouts db' !! k = Some w).
Proof.
  intros Hid. split; [|split; [|split]].
  - intros Hnone.
    unfold WorkoutListCreateAPIView_create, bind, lift,
      WorkoutSerializer_is_valid, run_field. by rewrite Hnone.
  - intros x Hx Hblank.
    unfold WorkoutListCreateAPIView_create, bind, lift,
      WorkoutSerializer_is_valid, run_field, CharField.
    by rewrite Hx, Hblank.
  - intros x s Hx Hs Hlong.
    unfold WorkoutListCreateAPIView_create, bind, lift,
      WorkoutSerializer_is_valid, run_field, CharField.
    rewrite Hx, Hs.
    assert (s ≠ "") as Hne by (intros ->; unfold len in Hlong; simpl in Hlong; lia).
    rewrite bool_decide_eq_false_2 by done.
    rewrite bool_decide_eq_true_2 by done. simpl.
    eexists. split; [reflexivity|]. constructor.
  - intros x s Hx Hs Hlen Hnull.
    unfold WorkoutListCreateAPIView_create, bind, lift,
      WorkoutSerializer_is_valid, run_field, CharField.
    rewrite Hx, Hs, Hnull.
    assert (s ≠ "") as Hne by (intros ->; unfold len in Hlen; simpl in Hlen; lia).
    rewrite bool_decide_eq_false_2 by done.
    rewrite bool_decide_eq_false_2 by lia. simpl.
    unfold WorkoutListCreateAPIView_perform_create, WorkoutSerializer_save.
    rewrite Hid. unfold Workout_save, ret. simpl.
    eexists. split; [reflexivity|]. simpl. split.
    + by rewrite lookup_insert_eq.
    + intros k w Hw. rewrite lookup_insert_ne; [done|].
      intros <-. by rewrite fresh_pk_unused in Hw.
Qed.


End Tenancy.

Lemma owner_deletes_workout_witness :
  ∃ db',
    WorkoutDestroyAPIView_destroy (mkRequest bob ∅) 2 sample_db
    = (Ok (mkResponse 204 NoContent), db')
    ∧ users db' = users sample_db
    ∧ workouts db' !! 2 = None
    ∧ (∀ k, k ≠ 2 → workouts db' !! k = workouts sample_db !! k)
    ∧ (∀ k e, exercises db' !! k = Some e
              ↔ exercises sample_db !! k = Some e ∧ workout e ≠ 2).
Proof.
  apply (owner_deletes_workout (mkRequest bob ∅) 2 sample_db leg_day);
    reflexivity.
Defined.

Lemma exercise_of_another_workout_is_404_witness :
  ExerciseRetrieveUpdateDestroyAPIView_partial_update
    (mkRequest alice {[ "reps" := json_int 3 ]}) 1 1 sample_db
  = (Raise Http404, sample_db)
  ∧ ExerciseRetrieveUpdateDestroyAPIView_destroy
      (mkRequest alice {[ "reps" := json_int 3 ]}) 1 1 sample_db
    = (Raise Http404, sample_db).
Proof.
  apply (exercise_of_another_workout_is_404
           (mkRequest alice {[ "reps" := json_int 3 ]}) 1 1 sample_db push_day);
    [reflexivity | reflexivity |].
  right. exists squat. split; [reflexivity | discriminate].
Defined.

Lemma owner_lists_exercises_witness :
  ∃ instances,
    ExerciseListCreateAPIView_list (mkRequest bob ∅) 2 sample_db
    = (Ok (mkResponse 200 (Array (ExerciseSerializer_data <$> instances))),
       sample_db)
    ∧ ∀ e, e ∈ instances
           ↔ ∃ k stored, exercises sample_db !! k = Some stored
                         ∧ workout stored = 2
                         ∧ e = set_exercise_id stored (Some k).
Proof.
  apply (owner_lists_exercises (mkRequest bob ∅) 2 sample_db leg_day);
    reflexivity.
Defined.

Lemma workout_create_outcome_witness :
  WorkoutListCreateAPIView_create post_empty sample_db
  = (Raise (ValidationError (FieldErrors {[ "name" := [Required] ]})),
     sample_db).
Proof.
  apply (workout_create_outcome post_empty sample_db 1); reflexivity.
Defined.

(** ** The footprint of the workout and exercise views *)

Section Footprint.
Context `{Wire}.

Lemma get_workout_reads (u : User) (wid : Z) (db : DB) :
  (get_workout u wid db).2 = db.
Proof.
  unfold get_workout. destruct (get_workout_row db wid); [|done].
  by case_bool_decide.
Qed.

Lemma workout_create_steps (request : Request) (db : DB) :
  tenant_step (user request) db (WorkoutListCreateAPIView_create request db).2.
Proof.
  unfold WorkoutListCreateAPIView_create, bind, lift,
    WorkoutListCreateAPIView_perform_create, WorkoutSerializer_save.
  destruct (WorkoutSerializer_is_valid (data request)) as [name|?];
    [|apply step_none].
  destruct (user_id (user request)) as [uid|] eqn:Hid; [|apply step_none].
  unfold Workout_save, ret. simpl. by apply step_workout_added.
Qed.

Lemma workout_destroy_steps (request : Request) (wid : Z) (db : DB) :
  tenant_step (user request) db (WorkoutDestroyAPIView_destroy request wid db).2.
Proof.
  unfold WorkoutDestroyAPIView_destroy, bind,
    WorkoutDestroyAPIView_get_queryset, get_workout_or_404,
    Workout_filter_owner.
  destruct (filter _ (workouts db) !! wid) as [w|] eqn:Hw; [|apply step_none].
  apply map_lookup_filter_Some in Hw as [Hw Hown]. simpl in *.
  by apply (step_workout_deleted _ _ wid w).
Qed.

Lemma exercise_create_steps (request : Request) (wid : Z) (db : DB) :
  tenant_step (user request) db
    (ExerciseListCreateAPIView_create request wid db).2.
Proof.
  unfold ExerciseListCreateAPIView_create,
    ExerciseListCreateAPIView_perform_create, bind, lift.
  destruct (ExerciseSerializer_is_valid false (data request))
    as [validated_data|?]; [|apply step_none].
  destruct (get_workout (user request) wid db) as [[w|?] db1] eqn:Hget.
  - apply get_workout_granted in Hget as (-> & Hid & Hown & row & Hrow & ->).
    unfold ExerciseSerializer_save.
    destruct (vd_name validated_data), (vd_sets validated_data),
      (vd_reps validated_data); simpl; try apply step_none.
    unfold Exercise_save. simpl.
    by apply (step_exercise_added _ _ _ row).
  - pose proof (get_workout_reads (user request) wid db) as Hdb.
    rewrite Hget in Hdb. simpl in *. subst. apply step_none.
Qed.

(** What [get_object] of the exercise detail view returns. *)
Lemma exercise_get_object_outcome (request : Request) (wid eid : Z) (db : DB) :
  (∃ e, ExerciseRetrieveUpdateDestroyAPIView_get_object request wid eid db
        = (Raise e, db))
  ∨ (∃ e0 row,
       ExerciseRetrieveUpdateDestroyAPIView_get_object request wid eid db
       = (Ok (set_exercise_id e0 (Some eid)), db)
       ∧ exercises db !! eid = Some e0
       ∧ workout e0 = wid
       ∧ workouts db !! wid = Some row
       ∧ Some (owner row) = user_id (user request)).
Proof.
  unfold ExerciseRetrieveUpdateDestroyAPIView_get_object,
    ExerciseRetrieveUpdateDestroyAPIView_get_queryset, bind.
  destruct (get_workout (user request) wid db) as [[w|?] db1] eqn:Hget.
  - apply get_workout_granted in Hget as (-> & Hid & Hown & row & Hrow & ->).
    unfold get_exercise_or_404.
    destruct (Exercise_filter_workout db _ !! eid) as [e0|] eqn:He.
    + apply exercise_queryset_lookup in He as [He Hw].
      right. exists e0, row. by repeat split.
    + left. eauto.
  - pose proof (get_workout_reads (user request) wid db) as Hdb.
    rewrite Hget in Hdb. simpl in *. subst. left. eauto.
Qed.

Lemma exercise_patch_steps (request : Request) (wid eid : Z) (db : DB) :
  tenant_step (user request) db
    (ExerciseRetrieveUpdateDestroyAPIView_partial_update request wid eid db).2.
Proof.
  unfold ExerciseRetrieveUpdateDestroyAPIView_partial_update.
  unfold bind at 1.
  destruct (exercise_get_object_outcome request wid eid db)
    as [[e ->] | (e0 & row & -> & He0 & Hw & Hrow & Hown)]; [apply step_none|].
  unfold bind at 1. unfold lift.
  destruct (ExerciseSerializer_is_valid true (data request))
    as [validated_data|?]; [|apply step_none].
  unfold bind, ExerciseSerializer_update.
  case_bool_decide; [apply step_none|].
  unfold Exercise_save.
  destruct (vd_weight validated_data), (vd_reps validated_data); simpl;
    apply (step_exercise_changed _ _ eid e0 _ row); simpl; congruence.
Qed.

Lemma exercise_destroy_steps (request : Request) (wid eid : Z) (db : DB) :
  tenant_step (user request) db
    (ExerciseRetrieveUpdateDestroyAPIView_destroy request wid eid db).2.
Proof.
  unfold ExerciseRetrieveUpdateDestroyAPIView_destroy.
  unfold bind at 1.
  destruct (exercise_get_object_outcome request wid eid db)
    as [[e ->] | (e0 & row & -> & He0 & Hw & Hrow & Hown)]; [apply step_none|].
  unfold bind, Exercise_delete. simpl.
  apply (step_exercise_deleted _ _ eid e0 row); congruence.
Qed.


Lemma step_keeps_references (u : User) (db db' : DB) :
  tenant_step u db db' →
  exercises_have_workouts db → exercises_have_workouts db'.
Proof.
  intros Hstep Hrefs. unfold exercises_have_workouts in *.
  destruct Hstep as [| w Hown | k w Hw Hown | e w Hw Hown
                     | k e0 e w He0 Hsame Hw Hown | k e0 w He0 Hw Hown];
    simpl; try done.
  - intros k e He. destruct (decide (fresh_pk (workouts db) = workout e)) as [<-|].
    + rewrite lookup_insert_eq. eauto.
    + rewrite lookup_insert_ne by done. eauto.
  - intros k' e [He Hne]%map_lookup_filter_Some. simpl in Hne.
    rewrite lookup_delete_ne by done. eauto.
  - intros k e' He'. destruct (decide (fresh_pk (exercises db) = k)) as [<-|].
    + rewrite lookup_insert_eq in He'. injection He' as <-. eauto.
    + rewrite lookup_insert_ne in He' by done. eauto.
  - intros k' e' He'. destruct (decide (k = k')) as [<-|].
    + rewrite lookup_insert_eq in He'. injection He' as <-.
      rewrite Hsame. eauto.
    + rewrite lookup_insert_ne in He' by done. eauto.
  - intros k' e' He'. apply lookup_delete_Some in He' as [_ He']. eauto.
Qed.


(** If every stored exercise references a stored workout, this is still so
    after any request to the workout and exercise views: a deleted workout
    takes its exercises with it, and an exercise is only created under, or
    kept under, a workout that exists. *)
Theorem tenant_views_keep_references (request : Request) (wid eid : Z)
    (db : DB) :
  exercises_have_workouts db →
  exercises_have_workouts (WorkoutListCreateAPIView_create request db).2
  ∧ exercises_have_workouts (WorkoutDestroyAPIView_destroy request wid db).2
  ∧ exercises_have_workouts (ExerciseListCreateAPIView_create request wid db).2
  ∧ exercises_have_workouts
      (ExerciseRetrieveUpdateDestroyAPIView_partial_update request wid eid db).2
  ∧ exercises_have_workouts
      (ExerciseRetrieveUpdateDestroyAPIView_destroy request wid eid db).2.
Proof.
  intros Hrefs.
  split; [|split; [|split; [|split]]];
    eapply (step_keeps_references (user request) db); try done.
  - apply workout_create_steps.
  - apply workout_destroy_steps.
  - apply exercise_create_steps.
  - apply exercise_patch_steps.
  - apply exercise_destroy_steps.
Qed.

End Footprint.

Lemma sample_db_references : exercises_have_workouts sample_db.
Proof.
  intros k e He. destruct (decide (k = 1)) as [->|Hne].
  - vm_compute in He. injection He as <-. vm_compute. eauto.
  - unfold sample_db in He. simpl in He.
    rewrite lookup_insert_ne in He by done. by rewrite lookup_empty in He.
Qed.

Lemma tenant_views_keep_references_witness :
  exercises_have_workouts
    (WorkoutDestroyAPIView_destroy (mkRequest bob ∅) 2 sample_db).2.
Proof.
  apply (tenant_views_keep_references (mkRequest bob ∅) 2 1 sample_db
           sample_db_references).
Defined.

(** ** More on the daily counter and the protein resource *)

Lemma set_user_id_same (u : User) (k : Z) :
  user_id u = Some k → set_user_id u (Some k) = u.
Proof. destruct u. simpl. by intros ->. Qed.

Lemma username_taken_insert_self (t : gmap Z User) (k : Z) (r : User)
    (name : string) :
  username_taken (<[k := r]> t) (Some k) name = username_taken t (Some k) name.
Proof.
  unfold username_taken. apply bool_decide_ext.
  rewrite !map_Exists_lookup. split.
  - intros (k' & row & Hrow & Hne & Hname).
    rewrite lookup_insert_ne in Hrow by congruence. eauto 6.
  - intros (k' & row & Hrow & Hne & Hname). exists k', row.
    rewrite lookup_insert_ne by congruence. eauto.
Qed.

(** A full save of a stored account whose lower-cased username no other row
    holds. *)
Lemma User_save_stored (self : User) (db : DB) (k : Z) :
  user_id self = Some k →
  username_taken (users db) (Some k) (lower (username self)) = false →
  User_save self None db
  = (Ok (lowered self), set_users db (<[k := lowered self]> (users db))).
Proof.
  intros Hid Hfree. unfold User_save. fold (lowered self).
  destruct (lowered_fields self) as (Hi & _ & _ & _ & _ & Hu).
  unfold Model_save. rewrite Hi, Hu, Hid, Hfree.
  rewrite set_user_id_same by congruence. reflexivity.
Qed.

(** In range before, in range after: a successful [add_protein] leaves the
    counter in 1..500 and a successful [reset_todays_protein] leaves it in
    0..500, and the counter that was written to the account's row is the
    one the instance holds. *)
Theorem counter_stays_in_range (self : User) :
  0 ≤ todays_protein self ≤ 500 →
  (∀ amount db self' db',
     add_protein self amount db = (Ok self', db') →
     0 < todays_protein self' ≤ 500
     ∧ ∃ k, user_id self = Some k
            ∧ (todays_protein <$> users db' !! k) = Some (todays_protein self'))
  ∧ (∀ today db self' db',
       reset_todays_protein today self db = (Ok self', db') →
       0 ≤ todays_protein self' ≤ 500
       ∧ protein_last_update self' = today
       ∧ (db' = db
          ∨ ∃ k, user_id self = Some k
                 ∧ (todays_protein <$> users db' !! k) = Some 0
                 ∧ (protein_last_update <$> users db' !! k) = Some today)).
Proof.
  intros Hrange. split.
  - intros amount db self' db'. unfold add_protein.
    case_bool_decide as Hpos; [done|]. case_bool_decide as Hcap; [done|].
    unfold User_save.
    fold (lowered (set_todays_protein self (todays_protein self + amount))).
    destruct (lowered_fields
                (set_todays_protein self (todays_protein self + amount)))
      as (Hi & _ & _ & Ht & _).
    unfold Model_save. simpl. rewrite Hi. simpl.
    destruct (user_id self) as [k|]; [|done].
    destruct (users db !! k) as [row|]; [|done].
    intros [= <- <-]. rewrite Ht. simpl. split; [lia|].
    exists k. split; [done|]. rewrite lookup_insert_eq.
    by rewrite copy_field_todays_protein, Ht.
  - intros today db self' db'. unfold reset_todays_protein.
    case_bool_decide as Hday.
    + unfold User_save.
      fold (lowered (set_protein_last_update (set_todays_protein self 0) today)).
      destruct (lowered_fields
                  (set_protein_last_update (set_todays_protein self 0) today))
        as (Hi & _ & _ & Ht & Hl & _).
      unfold Model_save. simpl. rewrite Hi. simpl.
      destruct (user_id self) as [k|]; [|done].
      destruct (users db !! k) as [row|]; [|done].
      intros [= <- <-]. rewrite Ht, Hl. simpl. split; [lia|]. split; [done|].
      right. exists k. split; [done|]. rewrite lookup_insert_eq.
      rewrite copy_field_todays_protein, copy_field_protein_last_update, Ht, Hl.
      done.
    + intros [= <- <-]. split; [done|]. split; [|by left].
      by destruct (decide (protein_last_update self = today)).
Qed.

Lemma counter_stays_in_range_witness :
  0 < todays_protein (mkUser (Some 1) "alice" "pbkdf2_sha256$a" 150 500 10) ≤ 500
  ∧ ∃ k, user_id alice = Some k
         ∧ (todays_protein
              <$> users (set_users sample_db
                           (<[1 := mkUser (Some 1) "alice" "pbkdf2_sha256$a"
                                     150 500 10]> (users sample_db))) !! k)
           = Some (todays_protein
                     (mkUser (Some 1) "alice" "pbkdf2_sha256$a" 150 500 10)).
Proof.
  assert (0 ≤ todays_protein alice ≤ 500) as Hrange by (simpl; lia).
  apply (proj1 (counter_stays_in_range alice Hrange) 450 sample_db).
  vm_compute. reflexivity.
Defined.

Section ProteinMore.
Context `{Wire}.

(** GET of the protein resource by a stored account: the answer is 200 with
    the goal and the post-reset counter; on the day of the last update the
    store is not written, on any other day the stored counter becomes 0 and
    the stored date the current one, the goal staying. *)
Theorem protein_get_resets_lazily (today : Z) (request : Request) (db : DB)
    (k : Z) (row : User) :
  user_id (user request) = Some k →
  users db !! k = Some row →
  ∃ db',
    ProteinRetrieveUpdateAPIView_retrieve today request db
    = (Ok (mkResponse 200
             (Object {[ "protein_goal" := VInt (protein_goal (user request));
                        "todays_protein"
                        := VInt (baseline today (user request)) ]})), db')
    ∧ (protein_last_update (user request) = today → db' = db)
    ∧ (protein_last_update (user request) ≠ today →
       baseline today (user request) = 0
       ∧ db' = set_users db
                 (<[k := set_todays_protein (set_protein_last_update row today) 0]>
                    (users db))).
Proof.
  intros Hid Hrow. eexists. split; [|split].
  - unfold ProteinRetrieveUpdateAPIView_retrieve,
      ProteinRetrieveUpdateAPIView_get_object, bind.
    rewrite (reset_run today _ db k row) by done.
    unfold ret, ProteinSerializer_data.
    destruct (after_reset_fields today (user request)) as (_ & Hg & Ht & _).
    by rewrite Hg, Ht.
  - intros Hday. unfold row_after_reset. rewrite decide_True by done.
    by apply set_users_same.
  - intros Hday. unfold row_after_reset, baseline.
    by rewrite !decide_False by done.
Qed.

(** A PATCH of the protein resource that carries an accepted
    [protein_to_add] and a goal in 1..500 applies both: the answer is 200
    with the new goal and the post-reset counter plus the amount, and the
    account's row holds exactly these, dated today. *)
Theorem protein_patch_applies_both (today : Z) (request : Request) (db : DB)
    (k : Z) (row : User) (x g : raw) (n v : Z) :
  user_id (user request) = Some k →
  users db !! k = Some row →
  username_taken (users db) (Some k) (lower (username (user request))) = false →
  get_protein_to_add (data request) = Some x →
  int_ x = Converted n →
  0 < n → baseline today (user request) + n ≤ 500 →
  data request !! "protein_goal" = Some g →
  to_int g = Some v →
  1 ≤ v ≤ 500 →
  ∃ stored,
    ProteinRetrieveUpdateAPIView_partial_update today request db
    = (Ok (mkResponse 200
             (Object {[ "protein_goal" := VInt v;
                        "todays_protein"
                        := VInt (baseline today (user request) + n) ]})),
       set_users db (<[k := stored]> (users db)))
    ∧ protein_goal stored = v
    ∧ todays_protein stored = baseline today (user request) + n
    ∧ protein_last_update stored = today
    ∧ user_id stored = Some k
    ∧ username stored = lower (username (user request))
    ∧ password stored = password (user request).
Proof.
  intros Hid Hrow Hfree Hget Hconv Hpos Hcap Hg Hv Hrange.
  rewrite (partial_update_add_phase today request db k row x n) by done.
  set (u1 := lowered (set_todays_protein (after_reset today (user request))
                        (baseline today (user request) + n))).
  destruct (after_reset_fields today (user request)) as (Hi0 & Hg0 & Ht0 & Hl0).
  destruct (lowered_fields
              (set_todays_protein (after_reset today (user request))
                 (baseline today (user request) + n)))
    as (Hi1 & Hp1 & Hg1 & Ht1 & Hl1 & Hu1).
  fold u1 in Hi1, Hp1, Hg1, Ht1, Hl1, Hu1. simpl in *.
  assert (username (after_reset today (user request))
          = username (user request)
          ∨ username (after_reset today (user request))
            = lower (username (user request))) as Huname.
  { unfold after_reset. case_decide; [by left|].
    destruct (lowered_fields
                (set_protein_last_update
                   (set_todays_protein (user request) 0) today))
      as (_ & _ & _ & _ & _ & Hu). right. by rewrite Hu. }
  assert (password (after_reset today (user request))
          = password (user request)) as Hpass.
  { unfold after_reset. case_decide; [done|].
    by destruct (lowered_fields
                   (set_protein_last_update
                      (set_todays_protein (user request) 0) today))
      as (_ & Hp & _). }
  assert (lower (username u1) = lower (username (user request))) as Hlow.
  { rewrite Hu1, lower_lower. by destruct Huname as [-> | ->];
      rewrite ?lower_lower. }
  unfold ProteinRetrieveUpdateAPIView_update.
  unfold bind at 1. unfold ProteinRetrieveUpdateAPIView_get_object.
  rewrite reset_same_day by congruence.
  unfold bind at 1. unfold lift, ProteinSerializer_is_valid, run_field.
  rewrite Hg. unfold IntegerField. rewrite Hv.
  rewrite !bool_decide_eq_false_2 by lia. simpl.
  unfold bind at 1. unfold ProteinSerializer_update.
  rewrite (User_save_stored _ _ k);
    [| by simpl; congruence
     | simpl; rewrite username_taken_insert_self; by rewrite Hlow].
  unfold ret. simpl. rewrite insert_insert_eq.
  destruct (lowered_fields (set_protein_goal u1 v))
    as (Hi2 & Hp2 & Hg2 & Ht2 & Hl2 & Hu2). simpl in *.
  eexists. split.
  - unfold ProteinSerializer_data. rewrite Hg2, Ht2, Ht1. reflexivity.
  - rewrite Hg2, Ht2, Hl2, Hi2, Hu2, Hp2, Ht1, Hl1, Hi1, Hp1, Hl0, Hi0, Hpass.
    by repeat split.
Qed.

(** The counter cannot be set through the body: a PATCH of the protein
    resource that carries neither [protein_to_add] nor [protein_goal] is
    answered 200 with the goal and the post-reset counter of the account,
    and the stored counter is that post-reset counter, whatever else the
    body holds (a [todays_protein] entry included). *)
Theorem protein_counter_is_read_only (today : Z) (request : Request)
    (db : DB) (k : Z) (row : User) :
  user_id (user request) = Some k →
  users db !! k = Some row →
  username_taken (users db) (Some k) (lower (username (user request))) = false →
  get_protein_to_add (data request) = None →
  data request !! "protein_goal" = None →
  ∃ stored,
    ProteinRetrieveUpdateAPIView_partial_update today request db
    = (Ok (mkResponse 200
             (Object {[ "protein_goal" := VInt (protein_goal (user request));
                        "todays_protein"
                        := VInt (baseline today (user request)) ]})),
       set_users db (<[k := stored]> (users db)))
    ∧ todays_protein stored = baseline today (user request)
    ∧ protein_goal stored = protein_goal (user request)
    ∧ protein_last_update stored = today.
Proof.
  intros Hid Hrow Hfree Hget Hgoal.
  unfold ProteinRetrieveUpdateAPIView_partial_update. rewrite Hget.
  unfold bind at 1. unfold ret at 1.
  unfold ProteinRetrieveUpdateAPIView_update.
  unfold bind at 1. unfold ProteinRetrieveUpdateAPIView_get_object.
  rewrite (reset_run today _ db k row) by done.
  destruct (after_reset_fields today (user request)) as (Hi0 & Hg0 & Ht0 & Hl0).
  assert (lower (username (after_reset today (user request)))
          = lower (username (user request))) as Hlow.
  { unfold after_reset. case_decide; [done|].
    destruct (lowered_fields
                (set_protein_last_update
                   (set_todays_protein (user request) 0) today))
      as (_ & _ & _ & _ & _ & Hu). rewrite Hu. simpl. apply lower_lower. }
  unfold bind at 1. unfold lift, ProteinSerializer_is_valid, run_field.
  rewrite Hgoal. simpl.
  unfold bind at 1. unfold ProteinSerializer_update.
  rewrite (User_save_stored _ _ k);
    [| congruence
     | simpl; rewrite username_taken_insert_self; by rewrite Hlow].
  unfold ret. simpl. rewrite insert_insert_eq.
  destruct (lowered_fields (after_reset today (user request)))
    as (Hi2 & Hp2 & Hg2 & Ht2 & Hl2 & Hu2).
  eexists. split.
  - unfold ProteinSerializer_data. rewrite Hg2, Ht2, Hg0, Ht0. reflexivity.
  - rewrite Hg2, Ht2, Hl2. by repeat split.
Qed.

End ProteinMore.

Lemma protein_get_resets_lazily_witness :
  ∃ db',
    ProteinRetrieveUpdateAPIView_retrieve 11 (mkRequest alice ∅) sample_db
    = (Ok (mkResponse 200
             (Object {[ "protein_goal" := VInt (protein_goal alice);
                        "todays_protein" := VInt (baseline 11 alice) ]})), db')
    ∧ (protein_last_update alice = 11 → db' = sample_db)
    ∧ (protein_last_update alice ≠ 11 →
       baseline 11 alice = 0
       ∧ db' = set_users sample_db
                 (<[1 := set_todays_protein (set_protein_last_update alice 11) 0]>
                    (users sample_db))).
Proof.
  apply (protein_get_resets_lazily 11 (mkRequest alice ∅) sample_db 1 alice);
    reflexivity.
Defined.

Lemma protein_patch_applies_both_witness :
  ∃ stored,
    ProteinRetrieveUpdateAPIView_partial_update 10
      (mkRequest alice
         {[ "protein_to_add" := json_int 30; "protein_goal" := json_int 200 ]})
      sample_db
    = (Ok (mkResponse 200
             (Object {[ "protein_goal" := VInt 200;
                        "todays_protein" := VInt (baseline 10 alice + 30) ]})),
       set_users sample_db (<[1 := stored]> (users sample_db)))
    ∧ protein_goal stored = 200
    ∧ todays_protein stored = baseline 10 alice + 30
    ∧ protein_last_update stored = 10
    ∧ user_id stored = Some 1
    ∧ username stored = lower (username alice)
    ∧ password stored = password alice.
Proof.
  apply (@protein_patch_applies_both observed_wire 10
           (mkRequest alice
              {[ "protein_to_add" := json_int 30;
                 "protein_goal" := json_int 200 ]})
           sample_db 1 alice (json_int 30) (json_int 200) 30 200);
    [reflexivity | reflexivity | by vm_compute | reflexivity | reflexivity
    | lia | vm_compute; discriminate | reflexivity | reflexivity | lia].
Defined.

Lemma protein_counter_is_read_only_witness :
  ∃ stored,
    ProteinRetrieveUpdateAPIView_partial_update 10
      (mkRequest alice {[ "todays_protein" := json_int 400 ]}) sample_db
    = (Ok (mkResponse 200
             (Object {[ "protein_goal" := VInt (protein_goal alice);
                        "todays_protein" := VInt (baseline 10 alice) ]})),
       set_users sample_db (<[1 := stored]> (users sample_db)))
    ∧ todays_protein stored = baseline 10 alice
    ∧ protein_goal stored = protein_goal alice
    ∧ protein_last_update stored = 10.
Proof.
  apply (protein_counter_is_read_only 10
           (mkRequest alice {[ "todays_protein" := json_int 400 ]})
           sample_db 1 alice);
    [reflexivity | reflexivity | by vm_compute | reflexivity | reflexivity].
Defined.

(** ** More on account creation *)

Section AccountsMore.
Context `{Wire} `{Accounts}.

(** Registration goes through: a well-formed username of which the store
    holds no case variant, with a well-formed password that the password
    validator accepts, is answered 201 with the new id and the lower-cased
    username; the stored row carries the hashed password and the defaults
    (goal 150, counter 0, last update today).  The unique index is never
    hit. *)
Theorem account_is_created (today : Z) (d : gmap string raw) (db : DB)
    (xu xp : raw) (u p : string) :
  d !! "username" = Some xu → to_str xu = Some u →
  1 ≤ len u ≤ 150 → has_null_character u = false →
  username_validators u = [] →
  (∀ k row, users db !! k = Some row → lower (username row) ≠ lower u) →
  d !! "password" = Some xp → to_str xp = Some p →
  1 ≤ len p ≤ 128 → has_null_character p = false →
  validate_password p (mkUser None (lower u) "" 150 0 today) = [] →
  CreateUserAPIView_create today d db
  = (Ok (mkResponse 201
           (Object {[ "id" := VInt (fresh_pk (users db));
                      "username" := VStr (lower u) ]})),
     set_users db
       (<[fresh_pk (users db) :=
            mkUser (Some (fresh_pk (users db))) (lower u) (make_password p)
                   150 0 today]> (users db))).
Proof.
  intros Hxu Hu Hlenu Hnullu Hformat Hfree Hxp Hp Hlenp Hnullp Hstrong.
  unfold CreateUserAPIView_create. unfold bind at 1.
  rewrite (UserSerializer_accepts d db xu xp u p) by done.
  unfold bind at 1. by rewrite UserSerializer_create_saves by done.
Qed.

(** Every outcome of a registration: the store as it was, or one new row
    whose username is lower-case and was held by no stored row. *)
Lemma create_user_outcome (today : Z) (d : gmap string raw) (db : DB) :
  (CreateUserAPIView_create today d db).2 = db
  ∨ ∃ instance,
      (CreateUserAPIView_create today d db).2
      = set_users db (<[fresh_pk (users db) := instance]> (users db))
      ∧ username instance = lower (username instance)
      ∧ ∀ k row, users db !! k = Some row → username row ≠ username instance.
Proof.
  destruct (CreateUserAPIView_create today d db) as [r db'] eqn:Hrun. simpl.
  unfold CreateUserAPIView_create in Hrun. unfold bind at 1 in Hrun.
  destruct (UserSerializer_is_valid d db) as [[validated_data|?] db0]
    eqn:Hvalid.
  - apply UserSerializer_valid in Hvalid as (-> & _).
    unfold bind at 1 in Hrun.
    destruct (UserSerializer_create today validated_data db)
      as [[instance|?] db0] eqn:Hcreate.
    + unfold ret in Hrun. injection Hrun as _ <-.
      unfold UserSerializer_create in Hcreate.
      destruct (validate_password _ _); [|done].
      apply User_save_all_columns in Hcreate
        as (k & Hid & -> & -> & Hstored & _ & Hfree).
      simpl in *.
      right. exists instance. split; [done|]. split.
      * by rewrite Hstored, lower_lower.
      * intros k row Hrow Heq.
        apply bool_decide_eq_false_1 in Hfree. apply Hfree.
        apply map_Exists_lookup. exists k, row.
        split; [done|]. split; [done|]. by rewrite Heq.
    + left. injection Hrun as _ <-.
      unfold UserSerializer_create in Hcreate.
      destruct (validate_password _ _).
      * unfold User_save, Model_save in Hcreate.
        destruct (username_taken _ _ _); [|done].
        by injection Hcreate as _ <-.
      * by injection Hcreate as _ <-.
  - left. injection Hrun as _ <-. unfold UserSerializer_is_valid in Hvalid.
    repeat match type of Hvalid with
           | context [match ?c with _ => _ end] => destruct c
           end; by injection Hvalid as _ <-.
Qed.

(** Registration keeps the usernames of the store lower-case and pairwise
    distinct, whatever the request and whatever its outcome. *)
Theorem registration_keeps_usernames_unique (today : Z) (d : gmap string raw)
    (db : DB) :
  usernames_unique db →
  usernames_unique (CreateUserAPIView_create today d db).2.
Proof.
  intros [Hlower Hdistinct].
  destruct (create_user_outcome today d db)
    as [-> | (instance & -> & Hlow & Hfree)]; [done|].
  split; simpl.
  - intros k row Hrow.
    destruct (decide (fresh_pk (users db) = k)) as [<-|Hne].
    + rewrite lookup_insert_eq in Hrow. by injection Hrow as <-.
    + rewrite lookup_insert_ne in Hrow by done. eauto.
  - intros k1 k2 r1 r2 H1 H2 Heq.
    destruct (decide (fresh_pk (users db) = k1)) as [<-|Hne1];
      destruct (decide (fresh_pk (users db) = k2)) as [<-|Hne2]; try done.
    + rewrite lookup_insert_eq in H1. injection H1 as <-.
      rewrite lookup_insert_ne in H2 by done.
      exfalso. by apply (Hfree k2 r2).
    + rewrite lookup_insert_eq in H2. injection H2 as <-.
      rewrite lookup_insert_ne in H1 by done.
      exfalso. by apply (Hfree k1 r1).
    + rewrite lookup_insert_ne in H1, H2 by done. eauto.
Qed.

End AccountsMore.

Lemma sample_db_usernames : usernames_unique sample_db.
Proof.
  split.
  - intros k row [[-> ->] | [-> ->]]%sample_db_users; reflexivity.
  - intros k1 k2 r1 r2 [[-> ->] | [-> ->]]%sample_db_users
      [[-> ->] | [-> ->]]%sample_db_users Heq; done.
Qed.

Lemma account_is_created_witness :
  CreateUserAPIView_create 10 register_Carol sample_db
  = (Ok (mkResponse 201
           (Object {[ "id" := VInt (fresh_pk (users sample_db));
                      "username" := VStr (lower "Carol") ]})),
     set_users sample_db
       (<[fresh_pk (users sample_db) :=
            mkUser (Some (fresh_pk (users sample_db))) (lower "Carol")
                   (make_password "StrongPass123!") 150 0 10]>
          (users sample_db))).
Proof.
  apply (@account_is_created observed_wire sample_accounts 10 register_Carol
           sample_db (json_word "Carol") (json_word "StrongPass123!"));
    try reflexivity; try (by vm_compute).
  intros k row [[-> ->] | [-> ->]]%sample_db_users; by vm_compute.
Defined.

Lemma registration_keeps_usernames_unique_witness :
  usernames_unique (CreateUserAPIView_create 10 register_Carol sample_db).2.
Proof.
  apply (registration_keeps_usernames_unique 10 register_Carol sample_db
           sample_db_usernames).
Defined.

(** ** Which exercises are accepted *)

Section ExerciseAccept.
Context `{Wire}.

Lemma digits_fuel_le (fuel : nat) (n k : Z) :
  0 ≤ n < 10 ^ k → 1 ≤ k → digits_fuel fuel n ≤ k.
Proof.
  revert n k. induction fuel as [|fuel IH]; intros n k Hn Hk; simpl; [done|].
  case_bool_decide as Hsmall; [done|].
  assert (2 ≤ k) as Hk2.
  { destruct (decide (k = 1)) as [->|]; [|lia].
    change (10 ^ 1) with 10 in Hn. lia. }
  assert (digits_fuel fuel (n / 10) ≤ k - 1); [|lia].
  apply IH; [|lia]. split; [apply Z.div_pos; lia|].
  apply Z.div_lt_upper_bound; [lia|].
  replace k with (1 + (k - 1)) in Hn by lia.
  rewrite Z.pow_add_r in Hn by lia. change (10 ^ 1) with 10 in Hn. lia.
Qed.

Lemma num_digits_le (n k : Z) :
  0 ≤ n < 10 ^ k → 1 ≤ k → num_digits n ≤ k.
Proof.
  intros Hn Hk. unfold num_digits. rewrite Z.abs_eq by lia.
  by apply digits_fuel_le.
Qed.

(** A non-negative decimal written with at most two decimal places and no
    exponent, not above 999.99, passes [DecimalField] and is stored with
    two places. *)
Lemma DecimalField_plain (x : raw) (d : Decimal) :
  to_decimal x = Some d →
  -2 ≤ exp d ≤ 0 → 0 ≤ coef d → coef d * 10 ^ (exp d + 2) ≤ 99999 →
  DecimalField 5 2 x = inr (mkDecimal (coef d * 10 ^ (exp d + 2)) (-2)).
Proof.
  intros Hx Hexp Hpos Hmax. unfold DecimalField. rewrite Hx.
  destruct (num_digits_bound (coef d)) as [Hnd _].
  assert (validate_precision 5 2 d = inr d) as ->.
  { unfold validate_precision.
    assert (exp d = 0 ∨ exp d = -1 ∨ exp d = -2) as [He | [He | He]] by lia;
      rewrite He in *; simpl in *.
    - change (10 ^ 2) with 100 in Hmax.
      assert (num_digits (coef d) ≤ 3)
        by (apply num_digits_le; [change (10 ^ 3) with 1000|]; lia).
      by rewrite !bool_decide_eq_false_2 by lia.
    - change (10 ^ 1) with 10 in Hmax.
      assert (num_digits (coef d) ≤ 4)
        by (apply num_digits_le; [change (10 ^ 4) with 10000|]; lia).
      case_bool_decide; by rewrite !bool_decide_eq_false_2 by lia.
    - change (10 ^ 0) with 1 in Hmax.
      assert (num_digits (coef d) ≤ 5)
        by (apply num_digits_le; [change (10 ^ 5) with 100000|]; lia).
      case_bool_decide; by rewrite !bool_decide_eq_false_2 by lia. }
  unfold quantize. simpl.
  assert (0 < 10 ^ (exp d + 2)) by (apply Z.pow_pos_nonneg; lia).
  by rewrite bool_decide_eq_false_2 by nia.
Qed.

(** An exercise that meets the field constraints is created: under a
    workout the requester owns, a name of 1 to 30 characters, sets and reps
    in 1..99 and a weight that is omitted, or is a plain non-negative
    decimal with at most two places not above 999.99, give a 201 and one
    new row that holds these values under that workout (weight 0.00 when
    omitted), every earlier exercise kept. *)
Theorem valid_exercise_is_created (request : Request) (wid : Z) (db : DB)
    (row : Workout) (xn xs xr : raw) (name : string) (s r : Z) (w : Decimal) :
  workouts db !! wid = Some row →
  Some (owner row) = user_id (user request) →
  data request !! "name" = Some xn → to_str xn = Some name →
  1 ≤ len name ≤ 30 → has_null_character name = false →
  data request !! "sets" = Some xs → to_int xs = Some s → 1 ≤ s ≤ 99 →
  data request !! "reps" = Some xr → to_int xr = Some r → 1 ≤ r ≤ 99 →
  (data request !! "weight" = None ∧ w = mkDecimal 0 (-2))
  ∨ (∃ xw d, data request !! "weight" = Some xw ∧ to_decimal xw = Some d
             ∧ -2 ≤ exp d ≤ 0 ∧ 0 ≤ coef d
             ∧ coef d * 10 ^ (exp d + 2) ≤ 99999
             ∧ w = mkDecimal (coef d * 10 ^ (exp d + 2)) (-2)) →
  ∃ db',
    ExerciseListCreateAPIView_create request wid db
    = (Ok (mkResponse 201
             (Object (ExerciseSerializer_data
                        (mkExercise (Some (fresh_pk (exercises db))) name s r w
                           wid)))), db')
    ∧ exercises db' !! fresh_pk (exercises db)
      = Some (mkExercise (Some (fresh_pk (exercises db))) name s r w wid)
    ∧ (∀ k e, exercises db !! k = Some e → exercises db' !! k = Some e)
    ∧ workouts db' = workouts db.
Proof.
  intros Hrow Hown Hxn Hname Hlen Hnull Hxs Hs Hsr Hxr Hr Hrr Hweight.
  assert (name ≠ "") as Hne
    by (intros ->; unfold len in Hlen; simpl in Hlen; lia).
  assert (ExerciseSerializer_is_valid false (data request)
          = Ok (mkExerciseData (Some name) (Some s) (Some r)
                  (match data request !! "weight" with
                   | Some _ => Some w
                   | None => None
                   end)))
    as Hvalid.
  { unfold ExerciseSerializer_is_valid, run_field.
    rewrite Hxn, Hxs, Hxr. unfold CharField, IntegerField.
    rewrite Hname, Hs, Hr, Hnull.
    rewrite (bool_decide_eq_false_2 (name = "")) by done.
    rewrite !(bool_decide_eq_false_2 (_ > _)) by lia.
    rewrite !(bool_decide_eq_false_2 (_ < _)) by lia. simpl.
    destruct Hweight as [[-> ->] | (xw & d & -> & Hd & He & Hc & Hm & ->)].
    - simpl. rewrite !(left_id_L ∅ (∪)).
      by rewrite bool_decide_eq_true_2.
    - rewrite (DecimalField_plain xw d) by done. simpl.
      rewrite !(left_id_L ∅ (∪)). by rewrite bool_decide_eq_true_2. }
  unfold ExerciseListCreateAPIView_create,
    ExerciseListCreateAPIView_perform_create, bind, lift.
  rewrite Hvalid. rewrite (get_workout_owned _ _ _ row) by done.
  unfold ExerciseSerializer_save, Exercise_save, ret. simpl.
  assert (default (mkDecimal 0 (-2))
            (match data request !! "weight" with
                   | Some _ => Some w
                   | None => None
                   end) = w) as ->.
  { by destruct Hweight as [[-> ->] | (xw & d & -> & _ & _ & _ & _ & ->)]. }
  eexists. split; [reflexivity|]. simpl. split; [|split; [|done]].
  - by rewrite lookup_insert_eq.
  - intros k e He. rewrite lookup_insert_ne; [done|].
    intros <-. by rewrite fresh_pk_unused in He.
Qed.

End ExerciseAccept.

Lemma valid_exercise_is_created_witness :
  ∃ db',
    ExerciseListCreateAPIView_create post_bench_press 1 sample_db
    = (Ok (mkResponse 201
             (Object (ExerciseSerializer_data
                        (mkExercise (Some (fresh_pk (exercises sample_db)))
                           "bench press" 1 5 (mkDecimal 0 (-2)) 1)))), db')
    ∧ exercises db' !! fresh_pk (exercises sample_db)
      = Some (mkExercise (Some (fresh_pk (exercises sample_db))) "bench press"
                1 5 (mkDecimal 0 (-2)) 1)
    ∧ (∀ k e, exercises sample_db !! k = Some e → exercises db' !! k = Some e)
    ∧ workouts db' = workouts sample_db.
Proof.
  apply (@valid_exercise_is_created observed_wire post_bench_press 1 sample_db
           push_day (json_word "bench press") (json_int 1) (json_int 5));
    try reflexivity; try (by vm_compute); try lia.
  left. by split.
Defined.

(** ** The owner's exercises *)

Section OwnExercises.
Context `{Wire}.

Lemma exercise_get_object_owned (request : Request) (wid eid : Z) (db : DB)
    (row : Workout) (e0 : Exercise) :
  workouts db !! wid = Some row →
  Some (owner row) = user_id (user request) →
  exercises db !! eid = Some e0 → workout e0 = wid →
  ExerciseRetrieveUpdateDestroyAPIView_get_object request wid eid db
  = (Ok (set_exercise_id e0 (Some eid)), db).
Proof.
  intros Hrow Hown He0 Hw.
  unfold ExerciseRetrieveUpdateDestroyAPIView_get_object,
    ExerciseRetrieveUpdateDestroyAPIView_get_queryset, bind.
  rewrite (get_workout_owned _ _ _ row) by done.
  unfold get_exercise_or_404.
  by rewrite (proj2 (exercise_queryset_lookup db row wid eid e0)).
Qed.

(** The owner patches the reps of an exercise: a value in 1..99 is stored
    in that row, whose name, sets, weight and workout stay, every other
    exercise kept; a value outside 1..99 is refused with a ValidationError
    on [reps] and nothing is written. *)
Theorem owner_patches_reps (request : Request) (wid eid : Z) (db : DB)
    (row : Workout) (e0 : Exercise) (x : raw) (n : Z) :
  workouts db !! wid = Some row →
  Some (owner row) = user_id (user request) →
  exercises db !! eid = Some e0 → workout e0 = wid →
  data request = {[ "reps" := x ]} →
  to_int x = Some n →
  (1 ≤ n ≤ 99 →
     ExerciseRetrieveUpdateDestroyAPIView_partial_update request wid eid db
     = (Ok (mkResponse 200
              (Object (ExerciseSerializer_data
                         (set_reps (set_exercise_id e0 (Some eid)) n)))),
        set_exercises db
          (<[eid := set_reps (set_exercise_id e0 (Some eid)) n]>
             (exercises db))))
  ∧ (n < 1 ∨ 99 < n →
     ∃ errors,
       ExerciseRetrieveUpdateDestroyAPIView_partial_update request wid eid db
       = (Raise (ValidationError (FieldErrors {[ "reps" := errors ]})), db)
       ∧ (errors = [MaxValue 99] ∨ errors = [MinValue 1])).
Proof.
  intros Hrow Hown He0 Hw Hdata Hx.
  assert (data request !! "name" = None ∧ data request !! "sets" = None
          ∧ data request !! "reps" = Some x
          ∧ data request !! "weight" = None) as (Hn & Hs & Hr & Hwt).
  { rewrite Hdata. split; [|split; [|split]];
      by rewrite ?lookup_singleton_eq, ?lookup_singleton_ne. }
  split.
  - intros Hrange.
    unfold ExerciseRetrieveUpdateDestroyAPIView_partial_update.
    unfold bind at 1.
    rewrite (exercise_get_object_owned request wid eid db row e0) by done.
    unfold bind at 1.
    unfold lift, ExerciseSerializer_is_valid, run_field.
    rewrite Hn, Hs, Hr, Hwt. unfold IntegerField. rewrite Hx.
    rewrite (bool_decide_eq_false_2 (n > 99)) by lia.
    rewrite (bool_decide_eq_false_2 (n < 1)) by lia. simpl.
    rewrite !(left_id_L ∅ (∪)). rewrite bool_decide_eq_true_2 by done.
    unfold bind, ExerciseSerializer_update. simpl.
    rewrite bool_decide_eq_false_2 by (intros Hne; by apply Hne; vm_compute).
    reflexivity.
  - intros Hrange.
    unfold ExerciseRetrieveUpdateDestroyAPIView_partial_update.
    unfold bind at 1.
    rewrite (exercise_get_object_owned request wid eid db row e0) by done.
    unfold bind at 1.
    unfold lift, ExerciseSerializer_is_valid, run_field.
    rewrite Hn, Hs, Hr, Hwt. unfold IntegerField. rewrite Hx.
    destruct Hrange.
    + rewrite (bool_decide_eq_false_2 (n > 99)) by lia.
      rewrite (bool_decide_eq_true_2 (n < 1)) by lia. simpl.
      rewrite !(left_id_L ∅ (∪)), (right_id_L ∅ (∪)).
      rewrite bool_decide_eq_false_2 by apply map_non_empty_singleton.
      eauto.
    + rewrite (bool_decide_eq_true_2 (n > 99)) by lia.
      rewrite (bool_decide_eq_false_2 (n < 1)) by lia. simpl.
      rewrite !(left_id_L ∅ (∪)), (right_id_L ∅ (∪)).
      rewrite bool_decide_eq_false_2 by apply map_non_empty_singleton.
      eauto.
Qed.

(** The owner deletes an exercise: the answer is 204, that row is gone and
    every other exercise, every workout and every account stay. *)
Theorem owner_deletes_exercise (request : Request) (wid eid : Z) (db : DB)
    (row : Workout) (e0 : Exercise) :
  workouts db !! wid = Some row →
  Some (owner row) = user_id (user request) →
  exercises db !! eid = Some e0 → workout e0 = wid →
  ExerciseRetrieveUpdateDestroyAPIView_destroy request wid eid db
  = (Ok (mkResponse 204 NoContent),
     set_exercises db (delete eid (exercises db)))
  ∧ delete eid (exercises db) !! eid = None
  ∧ ∀ k, k ≠ eid → delete eid (exercises db) !! k = exercises db !! k.
Proof.
  intros Hrow Hown He0 Hw. split; [|split].
  - unfold ExerciseRetrieveUpdateDestroyAPIView_destroy.
    unfold bind at 1.
    by rewrite (exercise_get_object_owned request wid eid db row e0).
  - apply lookup_delete_eq.
  - intros k Hk. by apply lookup_delete_ne.
Qed.

End OwnExercises.

Lemma owner_patches_reps_witness :
  ExerciseRetrieveUpdateDestroyAPIView_partial_update
    (mkRequest bob {[ "reps" := json_int 3 ]}) 2 1 sample_db
  = (Ok (mkResponse 200
           (Object (ExerciseSerializer_data
                      (set_reps (set_exercise_id squat (Some 1)) 3)))),
     set_exercises sample_db
       (<[1 := set_reps (set_exercise_id squat (Some 1)) 3]>
          (exercises sample_db))).
Proof.
  apply (@owner_patches_reps observed_wire
           (mkRequest bob {[ "reps" := json_int 3 ]}) 2 1 sample_db leg_day
           squat (json_int 3) 3); try reflexivity. lia.
Defined.

Lemma owner_deletes_exercise_witness :
  ExerciseRetrieveUpdateDestroyAPIView_destroy (mkRequest bob ∅) 2 1 sample_db
  = (Ok (mkResponse 204 NoContent),
     set_exercises sample_db (delete 1 (exercises sample_db)))
  ∧ delete 1 (exercises sample_db) !! 1 = None
  ∧ ∀ k, k ≠ 1 → delete 1 (exercises sample_db) !! k
                 = exercises sample_db !! k.
Proof.
  apply (owner_deletes_exercise (mkRequest bob ∅) 2 1 sample_db leg_day squat);
    reflexivity.
Defined.
